(** * Logbook and attendance management: a model of [ai.py]

    The application keeps two SQLite tables ([logbook], [attendance]),
    reads them back ordered by date, and offers a "most similar past
    entry" suggestion computed with scikit-learn.  The development
    below embeds the five functions of [ai.py] that make up the record
    store and the similarity advisor, together with the parts of
    SQLite, pandas, scikit-learn and Streamlit they call, and proves
    the properties of the written specification about them; it then
    embeds the page script of the module and proves what the code
    shows beyond the specification. *)

From Stdlib Require Import ZArith List String Ascii Bool Lia.
From Stdlib Require Import Permutation Sorted.
From Stdlib Require Import PrimFloat.
Import ListNotations.

Local Open Scope string_scope.
Local Open Scope list_scope.
Local Open Scope Z_scope.

(** ** Python outcomes *)

(** The exceptions the modelled code can raise.  [OperationalError]
    is raised by [sqlite3], [DatabaseError] by [pandas.read_sql_query],
    [ValueError] by scikit-learn and numpy, [IndexError] by [iloc];
    [AttributeError attr] is Python's
    failed lookup of the attribute [attr] on an object. *)
Inductive exn : Type :=
| OperationalError (msg : string)
| DatabaseError (msg : string)
| ValueError (msg : string)
| IndexError (msg : string)
| AttributeError (attr : string).

(** The value of a function that ends without [return], or with
    [return None]. *)
Inductive NoneType : Type := PyNone.

(** A call either returns a value or raises. *)
Inductive outcome (A : Type) : Type :=
| Return (a : A)
| Raise (e : exn).

Arguments Return {A} a.
Arguments Raise {A} e.

(** ** Rows of the two tables *)

(** [logbook(id, name, activity, date, description)], lines 18-24. *)
Module Logbook.
Record row : Type := Row {
  id : Z;
  name : string;
  activity : string;
  date : string;
  description : string
}.
End Logbook.

(** [attendance(id, student_name, roll_number, date, status)],
    lines 27-33. *)
Module Attendance.
Record row : Type := Row {
  id : Z;
  student_name : string;
  roll_number : string;
  date : string;
  status : string
}.
End Attendance.

(** ** The SQLite store *)

(** A table with an [INTEGER PRIMARY KEY AUTOINCREMENT] column: the
    rows in rowid order (the order of a table scan), and the entry
    [seq] that SQLite keeps for the table in [sqlite_sequence], the
    largest rowid it has ever handed out. *)
Record table (R : Type) : Type := Table {
  rows : list R;
  seq : Z
}.

Arguments Table {R} rows seq.
Arguments rows {R} t.
Arguments seq {R} t.

(** The database file: a table is absent until [CREATE TABLE] ran. *)
Record database : Type := Database {
  logbook : option (table Logbook.row);
  attendance : option (table Attendance.row)
}.

(** A new database file holds no table. *)
Definition new_database : database :=
  {| logbook := None; attendance := None |}.

(** What Streamlit has been asked to render, oldest first. *)
Inductive widget : Type :=
| st_warning (body : string)
| st_subheader (body : string)
| st_write (body : string)
| st_write_score (label : string) (score : float).

(** The state the functions act on: the database behind [conn] and the
    page being rendered. *)
Record world : Type := World {
  db : database;
  page : list widget
}.

(** ** The monad of the embedding: state and exceptions *)

Definition M (A : Type) : Type := world -> outcome A * world.

Definition ret {A : Type} (a : A) : M A := fun w => (Return a, w).

Definition raise {A : Type} (e : exn) : M A := fun w => (Raise e, w).

Definition bind {A B : Type} (m : M A) (k : A -> M B) : M B :=
  fun w =>
    match m w with
    | (Return a, w') => k a w'
    | (Raise e, w') => (Raise e, w')
    end.

Notation "x <- m ;; k" := (bind m (fun x => k))
  (at level 61, m at next level, right associativity).
Notation "m ;;; k" := (bind m (fun _ => k))
  (at level 61, right associativity).

(** Lifting of a pure outcome. *)
Definition lift {A : Type} (o : outcome A) : M A := fun w => (o, w).

Definition get_db : M database := fun w => (Return (db w), w).

Definition put_db (d : database) : M NoneType :=
  fun w => (Return PyNone, {| db := d; page := page w |}).

(** A Streamlit call appends one widget to the page. *)
Definition render (x : widget) : M NoneType :=
  fun w => (Return PyNone, {| db := db w; page := page w ++ [x] |}).

(** [with conn: body] (sqlite3's connection as a context manager):
    the transaction is committed when [body] returns and rolled back
    when it raises, the exception being passed on.  What [body] has
    rendered stays on the page either way. *)
Definition with_conn {A : Type} (body : M A) : M A :=
  fun w =>
    match body w with
    | (Return a, w') => (Return a, w')
    | (Raise e, w') => (Raise e, {| db := db w; page := page w' |})
    end.

(** *** Rowids *)

(** The largest rowid SQLite can store (2^63 - 1). *)
Definition max_rowid : Z := 9223372036854775807.

(** The largest rowid present in a table, 0 for an empty one. *)
Definition largest_rowid {R : Type} (rid : R -> Z) (l : list R) : Z :=
  fold_right (fun r m => Z.max (rid r) m) 0 l.

(** [AUTOINCREMENT]: the new rowid is one more than the largest rowid
    that has ever existed in the table; when that is already the
    largest possible rowid the [INSERT] fails with [SQLITE_FULL]. *)
Definition autoincrement {R : Type} (rid : R -> Z) (t : table R) : outcome Z :=
  let largest := Z.max (seq t) (largest_rowid rid (rows t)) in
  if max_rowid <=? largest
  then Raise (OperationalError "database or disk is full")
  else Return (largest + 1).

(** [INSERT INTO t (...) VALUES (...)] with the id column left out:
    the row gets the next rowid, goes to the end of the table (its
    rowid is the largest), and [sqlite_sequence] is updated. *)
Definition insert_into {R : Type} (rid : R -> Z) (mk : Z -> R) (t : table R)
  : outcome (table R) :=
  match autoincrement rid t with
  | Return i => Return {| rows := rows t ++ [mk i]; seq := i |}
  | Raise e => Raise e
  end.

(** *** ORDER BY date DESC *)

(** Rows are compared on their [date] column, of type TEXT with the
    BINARY collation: byte by byte, a proper prefix first. *)
Definition date_leb (d1 d2 : string) : bool := String.leb d1 d2.

(** The sort is the stable one of SQLite's sorter: rows with equal
    dates stay in scan order, that is in rowid order.  [sorter_insert]
    puts a row in front of the sorted rows that follow it in the scan,
    before the first of them whose date is not later than its own. *)
Fixpoint sorter_insert {R : Type} (date : R -> string) (r : R) (l : list R)
  : list R :=
  match l with
  | [] => [r]
  | r' :: l' =>
      if date_leb (date r') (date r)
      then r :: r' :: l'
      else r' :: sorter_insert date r l'
  end.

Definition order_by_date_desc {R : Type} (date : R -> string) (l : list R)
  : list R :=
  fold_right (sorter_insert date) [] l.

(** ** The record store of [ai.py] *)

(** [create_tables], lines 15-34: both statements are
    [CREATE TABLE IF NOT EXISTS], which leave an existing table as it
    is and create an absent one empty.  The store is a database that
    SQLite can read and write: the faults of the file itself (a file
    that is not a database, on which the first statement raises
    [DatabaseError]; a disk error) are outside the model. *)
Definition create_table_if_not_exists {R : Type} (t : option (table R))
  : option (table R) :=
  match t with
  | Some t' => Some t'
  | None => Some {| rows := []; seq := 0 |}
  end.

Definition create_tables : M NoneType :=
  with_conn (
    d <- get_db ;;
    put_db {| logbook := create_table_if_not_exists (logbook d);
              attendance := attendance d |} ;;;
    d <- get_db ;;
    put_db {| logbook := logbook d;
              attendance := create_table_if_not_exists (attendance d) |}).

(** [add_log_entry], lines 37-42. *)
Definition add_log_entry (name activity date description : string)
  : M NoneType :=
  with_conn (
    d <- get_db ;;
    match logbook d with
    | None => raise (OperationalError "no such table: logbook")
    | Some t =>
        t' <- lift (insert_into Logbook.id
                      (fun i => Logbook.Row i name activity date description) t) ;;
        put_db {| logbook := Some t'; attendance := attendance d |}
    end).

(** [get_log_entries], lines 45-48: the data frame is the list of rows
    of [SELECT * FROM logbook ORDER BY date DESC]. *)
Definition get_log_entries : M (list Logbook.row) :=
  df <- with_conn (
    d <- get_db ;;
    match logbook d with
    | None => raise (DatabaseError "no such table: logbook")
    | Some t => ret (order_by_date_desc Logbook.date (rows t))
    end) ;;
  ret df.

(** *** The clock *)

(** The value of [datetime.now()]: the fields of a [datetime] object
    (year 1 to 9999, month 1 to 12, day 1 to 31). *)
Record datetime : Type := Datetime {
  year : nat;
  month : nat;
  day : nat;
  hour : nat;
  minute : nat;
  second : nat
}.

Definition digit (n : nat) : ascii := ascii_of_nat (48 + n mod 10).

(** The [width] low decimal digits of [n], zeros in front. *)
Fixpoint zero_padded (width n : nat) : string :=
  match width with
  | O => ""
  | S width' => zero_padded width' (n / 10) ++ String (digit n) ""
  end.

(** [strftime("%Y-%m-%d")]: the year on four digits, the month and
    the day on two.  This is the text for the years 1000 to 9999;
    for an earlier year the C library decides whether [%Y] is padded
    (glibc prints 999 on three digits).  The statements that read the
    text of a date take a day of a year from 1000 on
    ([calendar_day]), as the clock and the date picker give. *)
Definition strftime_Y_m_d (t : datetime) : string :=
  zero_padded 4 (year t) ++ "-" ++ zero_padded 2 (month t) ++ "-"
    ++ zero_padded 2 (day t).

(** [mark_attendance], lines 51-56.  [now] is what [datetime.now()]
    answers when the arguments of [execute] are evaluated. *)
Definition mark_attendance (now : datetime)
    (student_name roll_number status : string) : M NoneType :=
  with_conn (
    d <- get_db ;;
    match attendance d with
    | None => raise (OperationalError "no such table: attendance")
    | Some t =>
        t' <- lift (insert_into Attendance.id
                      (fun i => Attendance.Row i student_name roll_number
                                  (strftime_Y_m_d now) status) t) ;;
        put_db {| logbook := logbook d; attendance := Some t' |}
    end).

(** [get_attendance], lines 59-62. *)
Definition get_attendance : M (list Attendance.row) :=
  df <- with_conn (
    d <- get_db ;;
    match attendance d with
    | None => raise (DatabaseError "no such table: attendance")
    | Some t => ret (order_by_date_desc Attendance.date (rows t))
    end) ;;
  ret df.

(** ** scikit-learn's [CountVectorizer] and [cosine_similarity] *)

(** The descriptions are taken as ASCII text: [str.lower] and the
    class [\w] of the token pattern are described on ASCII, where a
    character is a byte.  Outside ASCII the pattern is Unicode's (an
    accented letter is a word character); the statements that tell
    which texts have a token take ASCII texts ([ascii_text]). *)
Definition in_range (lo hi : nat) (c : ascii) : bool :=
  (Nat.leb lo (nat_of_ascii c) && Nat.leb (nat_of_ascii c) hi)%bool.

(** [\w]: a letter, a digit or the underscore. *)
Definition is_word_char (c : ascii) : bool :=
  (in_range 48 57 c || in_range 65 90 c || in_range 97 122 c
   || in_range 95 95 c)%bool.

Definition lower_char (c : ascii) : ascii :=
  if in_range 65 90 c then ascii_of_nat (nat_of_ascii c + 32) else c.

(** [preprocessor]: [lowercase=True], no accent stripping. *)
Fixpoint lower (s : string) : string :=
  match s with
  | EmptyString => EmptyString
  | String c s' => String (lower_char c) (lower s')
  end.

(** The default [token_pattern], [(?u)\b\w\w+\b]: a token is a maximal
    run of word characters, of length 2 or more. *)
Definition emit_token (run : string) : list string :=
  if Nat.leb 2 (String.length run) then [run] else [].

Fixpoint find_tokens (s : string) (run : string) : list string :=
  match s with
  | EmptyString => emit_token run
  | String c s' =>
      if is_word_char c
      then find_tokens s' (String.append run (String c EmptyString))
      else emit_token run ++ find_tokens s' EmptyString
  end.

(** [build_analyzer()] with the defaults: lowercase, tokenize, unigrams,
    no stop words. *)
Definition analyzer (doc : string) : list string :=
  find_tokens (lower doc) EmptyString.

(** The vocabulary is the set of the tokens; its terms are indexed in
    sorted order ([_sort_features]). *)
Fixpoint vocabulary_insert (term : string) (v : list string) : list string :=
  match v with
  | [] => [term]
  | u :: v' =>
      match String.compare term u with
      | Lt => term :: u :: v'
      | Eq => u :: v'
      | Gt => u :: vocabulary_insert term v'
      end
  end.

Definition build_vocabulary (raw_documents : list string) : list string :=
  fold_left (fun v term => vocabulary_insert term v)
            (List.concat (map analyzer raw_documents)) [].

(** A row of the document-term matrix: the number of occurrences in
    the document of each term of the vocabulary; tokens outside the
    vocabulary are dropped. *)
Definition count_row (vocabulary : list string) (doc : string) : list Z :=
  map (fun term => Z.of_nat (count_occ string_dec (analyzer doc) term))
      vocabulary.

(** The two kinds of objects [ai_suggestions] holds in [vectorizer]:
    an estimator, with its [vocabulary_] once fitted, and a scipy
    sparse matrix of counts. *)
Inductive pyobj : Type :=
| CountVectorizer (vocabulary_ : option (list string))
| csr_matrix (counts : list (list Z)).

(** [self.fit_transform(raw_documents)].  Defined by the estimator:
    learns the vocabulary and returns the document-term matrix; an
    empty vocabulary is refused.  (With the defaults [min_df=1],
    [max_df=1.0], [max_features=None] no term is pruned.)  A sparse
    matrix has no such attribute. *)
Definition fit_transform (self : pyobj) (raw_documents : list string)
  : outcome pyobj :=
  match self with
  | CountVectorizer _ =>
      match build_vocabulary raw_documents with
      | [] => Raise (ValueError
          "empty vocabulary; perhaps the documents only contain stop words")
      | vocabulary =>
          Return (csr_matrix (map (count_row vocabulary) raw_documents))
      end
  | csr_matrix _ => Raise (AttributeError "fit_transform")
  end.

(** [self.transform(raw_documents)].  Defined by the estimator, which
    must have been fitted; a sparse matrix has no such attribute. *)
Definition transform (self : pyobj) (raw_documents : list string)
  : outcome pyobj :=
  match self with
  | CountVectorizer (Some vocabulary) =>
      Return (csr_matrix (map (count_row vocabulary) raw_documents))
  | CountVectorizer None => Raise (ValueError "Vocabulary not fitted or provided")
  | csr_matrix _ => Raise (AttributeError "transform")
  end.

(** [self.toarray()].  Defined by the sparse matrix: the dense array
    of its entries; an estimator has no such attribute. *)
Definition toarray (self : pyobj) : outcome (list (list Z)) :=
  match self with
  | csr_matrix counts => Return counts
  | CountVectorizer _ => Raise (AttributeError "toarray")
  end.

(** Counts as [float64]. *)
Fixpoint float_of_positive (p : positive) : float :=
  match p with
  | xH => 1%float
  | xO p' => (2 * float_of_positive p')%float
  | xI p' => (2 * float_of_positive p' + 1)%float
  end.

Definition float_of_Z (z : Z) : float :=
  match z with
  | Z0 => 0%float
  | Zpos p => float_of_positive p
  | Zneg p => (- float_of_positive p)%float
  end.

Definition dot (a b : list float) : float :=
  fold_left (fun acc xy => (acc + fst xy * snd xy)%float) (combine a b) 0%float.

(** [normalize(X)]: each row divided by its Euclidean norm, a zero
    norm being replaced by 1 first. *)
Definition normalize_row (a : list Z) : list float :=
  let x := map float_of_Z a in
  let norm := PrimFloat.sqrt (dot x x) in
  let norm := if PrimFloat.eqb norm 0%float then 1%float else norm in
  map (fun xi => (xi / norm)%float) x.

(** [cosine_similarity(X, Y)]: the products of the normalized rows of
    [X] with the normalized rows of [Y]. *)
Definition cosine_similarity (X Y : list (list Z)) : list (list float) :=
  map (fun a => map (fun b => dot (normalize_row a) (normalize_row b)) Y) X.

(** [a.flatten()]. *)
Definition flatten (a : list (list float)) : list float :=
  List.concat a.

(** [a.argmax()]: the index of the first occurrence of the largest
    value; an empty array is refused. *)
Fixpoint argmax_from (best : nat) (best_val : float) (i : nat) (a : list float)
  : nat :=
  match a with
  | [] => best
  | x :: a' =>
      if PrimFloat.ltb best_val x
      then argmax_from i x (S i) a'
      else argmax_from best best_val (S i) a'
  end.

Definition argmax (a : list float) : outcome nat :=
  match a with
  | [] => Raise (ValueError "attempt to get argmax of an empty sequence")
  | x :: a' => Return (argmax_from 0%nat x 1%nat a')
  end.

(** [df.iloc[i]]. *)
Definition iloc {R : Type} (df : list R) (i : nat) : outcome R :=
  match nth_error df i with
  | Some r => Return r
  | None => Raise (IndexError "single positional indexer is out-of-bounds")
  end.

(** ** The similarity advisor of [ai.py] *)

(** [ai_suggestions], lines 65-85.  [logbook_df.empty] holds when the
    frame has no row.  The name [vectorizer] is bound to what
    [fit_transform] returns. *)
Definition ai_suggestions (new_description : string)
    (logbook_df : list Logbook.row) : M NoneType :=
  match logbook_df with
  | [] =>
      render (st_warning "No logs available for AI suggestions.") ;;;
      ret PyNone
  | _ =>
      vectorizer <- lift (fit_transform (CountVectorizer None)
                            (map Logbook.description logbook_df)) ;;
      vectors <- lift (toarray vectorizer) ;;
      new_matrix <- lift (transform vectorizer [new_description]) ;;
      new_vector <- lift (toarray new_matrix) ;;
      let similarity := flatten (cosine_similarity new_vector vectors) in
      best_match_idx <- lift (argmax similarity) ;;
      best_match <- lift (iloc logbook_df best_match_idx) ;;
      render (st_subheader "AI Suggested Similar Log Entry") ;;;
      render (st_write ("**Name**: " ++ Logbook.name best_match)) ;;;
      render (st_write ("**Activity**: " ++ Logbook.activity best_match)) ;;;
      render (st_write ("**Date**: " ++ Logbook.date best_match)) ;;;
      render (st_write ("**Description**: "
                          ++ Logbook.description best_match)) ;;;
      render (st_write_score "**Similarity Score**: "
                (nth best_match_idx similarity 0%float)) ;;;
      ret PyNone
  end.

(** ** Runs of the application *)

(** One interaction with the application: a call of one of the five
    functions with its arguments ([conn] is always the connection of
    line 88). *)
Inductive call : Type :=
| AddLogEntry (name activity date description : string)
| GetLogEntries
| MarkAttendance (now : datetime) (student_name roll_number status : string)
| GetAttendance
| AiSuggestions (new_description : string) (logbook_df : list Logbook.row).

(** The state a call leaves behind, whether it returned or raised. *)
Definition run_call (c : call) (w : world) : world :=
  match c with
  | AddLogEntry name activity date description =>
      snd (add_log_entry name activity date description w)
  | GetLogEntries => snd (get_log_entries w)
  | MarkAttendance now student_name roll_number status =>
      snd (mark_attendance now student_name roll_number status w)
  | GetAttendance => snd (get_attendance w)
  | AiSuggestions new_description logbook_df =>
      snd (ai_suggestions new_description logbook_df w)
  end.

Definition run_calls (cs : list call) (w : world) : world :=
  fold_left (fun w' c => run_call c w') cs w.

(** The store right after start-up (lines 88-89) on a new database
    file. *)
Definition fresh_world : world :=
  snd (create_tables {| db := new_database; page := [] |}).

(** The four caller-supplied columns of a logbook row. *)
Definition log_fields (r : Logbook.row) : string * string * string * string :=
  (Logbook.name r, Logbook.activity r, Logbook.date r, Logbook.description r).

(** A sequence of [add_log_entry] calls, one per tuple of arguments. *)
Fixpoint add_log_entries (entries : list (string * string * string * string))
  : M NoneType :=
  match entries with
  | [] => ret PyNone
  | (name, activity, date, description) :: entries' =>
      add_log_entry name activity date description ;;;
      add_log_entries entries'
  end.

(** *** Predicates of the statements *)

(** [r1] may come before [r2] in a frame ordered by date descending. *)
Definition date_desc {R : Type} (date : R -> string) (r1 r2 : R) : Prop :=
  date_leb (date r2) (date r1) = true.

(** The table exists, and its ids are strictly increasing in insertion
    order. *)
Definition ids_sorted {R : Type} (rid : R -> Z) (t : option (table R)) : Prop :=
  exists t', t = Some t' /\ StronglySorted Z.lt (map rid (rows t')).

(** The table exists, and its ids are pairwise distinct and strictly
    increasing in insertion order. *)
Definition ids_unique_increasing {R : Type} (rid : R -> Z)
    (t : option (table R)) : Prop :=
  exists t',
    t = Some t' /\ NoDup (map rid (rows t'))
    /\ StronglySorted Z.lt (map rid (rows t')).

(** Every row of [before] is still in [after], at the same place. *)
Definition rows_kept {R : Type} (before after : option (table R)) : Prop :=
  match before with
  | None => True
  | Some t =>
      exists t' added, after = Some t' /\ rows t' = rows t ++ added
  end.

(** The shape YYYY-MM-DD. *)
Definition is_digit (c : ascii) : bool := in_range 48 57 c.

Definition is_iso_date (s : string) : bool :=
  match s with
  | String y1 (String y2 (String y3 (String y4 (String h1 (String m1
      (String m2 (String h2 (String d1 (String d2 EmptyString))))))))) =>
      (is_digit y1 && is_digit y2 && is_digit y3 && is_digit y4
       && Ascii.eqb h1 "-" && is_digit m1 && is_digit m2
       && Ascii.eqb h2 "-" && is_digit d1 && is_digit d2)%bool
  | _ => false
  end.

(** A day of a year of four digits, as the clock and the date picker
    give. *)
Definition calendar_day (t : datetime) : Prop :=
  (10 ^ 3 <= year t < 10 ^ 4 /\ 1 <= month t <= 12 /\ 1 <= day t <= 31)%nat.

(** The value of a decimal digit. *)
Definition digit_value (c : ascii) : nat := (nat_of_ascii c - 48)%nat.

(** The year, the month and the day that a text of shape YYYY-MM-DD
    writes. *)
Definition day_of_iso_date (s : string) : option (nat * nat * nat) :=
  if is_iso_date s
  then
    match s with
    | String y1 (String y2 (String y3 (String y4 (String _ (String m1
        (String m2 (String _ (String d1 (String d2 _))))))))) =>
        Some ((((digit_value y1 * 10 + digit_value y2) * 10
                + digit_value y3) * 10 + digit_value y4,
               digit_value m1 * 10 + digit_value m2,
               digit_value d1 * 10 + digit_value d2)%nat)
    | _ => None
    end
  else None.

(** A text of ASCII characters only. *)
Fixpoint ascii_text (s : string) : bool :=
  match s with
  | EmptyString => true
  | String c s' => (Nat.ltb (nat_of_ascii c) 128 && ascii_text s')%bool
  end.

(** ** The page script of [ai.py], lines 87-180 *)

(** Streamlit runs the whole module again at every interaction.  The
    values the input widgets return in one run are the input of the
    model; the display calls are recorded on the screen. *)

(** [st.selectbox("Activity", ...)], line 109. *)
Inductive activity_option : Type := Lecture | Meeting | Task | Event | Other.

Definition activity_text (a : activity_option) : string :=
  match a with
  | Lecture => "Lecture"
  | Meeting => "Meeting"
  | Task => "Task"
  | Event => "Event"
  | Other => "Other"
  end.

(** [st.selectbox("Attendance Status", ...)], line 165. *)
Inductive status_option : Type := Present | Absent.

Definition status_text (s : status_option) : string :=
  match s with
  | Present => "Present"
  | Absent => "Absent"
  end.

(** The sub-page chosen by [st.sidebar.radio("Logbook Page", ...)],
    line 101, with what its widgets return: the fields of the form
    and [st.form_submit_button]; the selection of [st.multiselect]
    ([None] while the user has not changed the default); the text
    area and [st.button]. *)
Inductive logbook_input : Type :=
| AddLogEntryPage (name : string) (activity : activity_option)
    (date : datetime) (description : string) (submitted : bool)
| ViewLogbookPage (selection : option (list string))
| AILogSuggestionsPage (new_description : string) (clicked : bool).

(** The sub-page chosen by [st.sidebar.radio("Attendance Page", ...)],
    line 156. *)
Inductive attendance_input : Type :=
| MarkAttendancePage (student_name roll_number : string)
    (status : status_option) (submitted : bool)
| ViewAttendancePage.

(** The page chosen by [st.sidebar.radio("Select a Page", ...)],
    line 95. *)
Inductive input : Type :=
| LogbookPage (i : logbook_input)
| AttendanceManagementPage (i : attendance_input).

(** What one run of the script displays: the calls of the functions
    above ([st.warning], [st.subheader], [st.write]) and those that
    only the script makes. *)
Inductive element : Type :=
| st_title (body : string)
| st_header (body : string)
| st_success (body : string)
| st_dataframe (data : list Logbook.row + list Attendance.row)
| st_element (x : widget).

(** The state of a run: the database behind the cached connection of
    lines 9-12 and the screen. *)
Record session : Type := Session {
  conn : database;
  screen : list element
}.

Definition Script (A : Type) : Type := session -> outcome A * session.

Definition sret {A : Type} (a : A) : Script A := fun s => (Return a, s).

Definition sbind {A B : Type} (m : Script A) (k : A -> Script B) : Script B :=
  fun s =>
    match m s with
    | (Return a, s') => k a s'
    | (Raise e, s') => (Raise e, s')
    end.

Notation "x <~ m ;; k" := (sbind m (fun x => k))
  (at level 61, m at next level, right associativity).
Notation "m ;;> k" := (sbind m (fun _ => k))
  (at level 61, right associativity).

Definition show (e : element) : Script NoneType :=
  fun s => (Return PyNone, {| conn := conn s; screen := screen s ++ [e] |}).

(** A call of one of the five functions from the script: it acts on
    the database of the session, and what it renders goes to the
    screen. *)
Definition invoke {A : Type} (m : M A) : Script A :=
  fun s =>
    match m {| db := conn s; page := [] |} with
    | (o, w) =>
        (o, {| conn := db w; screen := screen s ++ map st_element (page w) |})
    end.

(** [str.isspace] on ASCII: tab to carriage return, the four
    separators, the blank.  Unicode has more white space (the
    no-break space); the statements about queries that are not blank
    take ASCII queries ([ascii_text]). *)
Definition is_space (c : ascii) : bool :=
  (in_range 9 13 c || in_range 28 32 c)%bool.

Fixpoint lstrip (s : string) : string :=
  match s with
  | EmptyString => EmptyString
  | String c s' => if is_space c then lstrip s' else s
  end.

Fixpoint rstrip (s : string) : string :=
  match s with
  | EmptyString => EmptyString
  | String c s' =>
      match rstrip s' with
      | EmptyString => if is_space c then EmptyString else String c EmptyString
      | r => String c r
      end
  end.

(** [s.strip()]. *)
Definition strip (s : string) : string := rstrip (lstrip s).

(** [Series.unique()]: the distinct values, in order of first
    appearance. *)
Fixpoint unique_from (seen l : list string) : list string :=
  match l with
  | [] => []
  | x :: l' =>
      if existsb (String.eqb x) seen
      then unique_from seen l'
      else x :: unique_from (x :: seen) l'
  end.

Definition unique (l : list string) : list string := unique_from [] l.

(** [Series.isin(values)], for one value of the series. *)
Definition isin (x : string) (values : list string) : bool :=
  existsb (String.eqb x) values.

(** [st.multiselect(label, options=..., default=...)]: the default
    until the user changes the selection. *)
Definition st_multiselect (options default : list string)
    (selection : option (list string)) : list string :=
  match selection with
  | None => default
  | Some chosen => chosen
  end.

(** Lines 103-117. *)
Definition add_log_entry_page (name : string) (activity : activity_option)
    (date : datetime) (description : string) (submitted : bool) : Script NoneType :=
  show (st_element (st_subheader "Add a New Log Entry")) ;;>
  if submitted
  then
    invoke (add_log_entry name (activity_text activity) (strftime_Y_m_d date)
            description) ;;>
    show (st_success "Log entry added successfully!")
  else sret PyNone.

(** Lines 119-135. *)
Definition view_logbook_page (selection : option (list string)) : Script NoneType :=
  show (st_element (st_subheader "Logbook Entries")) ;;>
  logbook_df <~ invoke get_log_entries ;;
  match logbook_df with
  | [] => show (st_element (st_warning "No log entries found."))
  | _ =>
      show (st_dataframe (inl logbook_df)) ;;>
      let activities := unique (map Logbook.activity logbook_df) in
      let selected_activities :=
        st_multiselect activities activities selection in
      let filtered_logs :=
        filter (fun r => isin (Logbook.activity r) selected_activities)
               logbook_df in
      show (st_element (st_write "Filtered Log Entries")) ;;>
      show (st_dataframe (inl filtered_logs))
  end.

(** Lines 137-150. *)
Definition ai_log_suggestions_page (new_description : string) (clicked : bool)
  : Script NoneType :=
  show (st_element (st_subheader "AI-Powered Log Insights")) ;;>
  logbook_df <~ invoke get_log_entries ;;
  show (st_element
          (st_subheader "Input a description to get AI-based suggestions:")) ;;>
  if clicked
  then
    if String.eqb (strip new_description) ""
    then show (st_element (st_warning "Please enter a description."))
    else invoke (ai_suggestions new_description logbook_df)
  else sret PyNone.

(** Lines 158-170. *)
Definition mark_attendance_page (now : datetime)
    (student_name roll_number : string) (status : status_option)
    (submitted : bool) : Script NoneType :=
  show (st_element (st_subheader "Mark Attendance")) ;;>
  if submitted
  then
    invoke (mark_attendance now student_name roll_number (status_text status)) ;;>
    show (st_success ("Attendance for " ++ student_name ++ " (" ++ roll_number
                        ++ ") marked as " ++ status_text status ++ "."))
  else sret PyNone.

(** Lines 172-180. *)
Definition view_attendance_page : Script NoneType :=
  show (st_element (st_subheader "Attendance Records")) ;;>
  attendance_df <~ invoke get_attendance ;;
  match attendance_df with
  | [] => show (st_element (st_warning "No attendance records found."))
  | _ => show (st_dataframe (inr attendance_df))
  end.

(** One run of the module, lines 87-180; [now] is the reading of the
    clock, should the run mark attendance. *)
Definition script (now : datetime) (u : input) : Script NoneType :=
  invoke create_tables ;;>
  show (st_title "Logbook and Attendance Management System") ;;>
  match u with
  | LogbookPage i =>
      show (st_header "AI Enhanced Logbook Management") ;;>
      match i with
      | AddLogEntryPage name activity date description submitted =>
          add_log_entry_page name activity date description submitted
      | ViewLogbookPage selection => view_logbook_page selection
      | AILogSuggestionsPage new_description clicked =>
          ai_log_suggestions_page new_description clicked
      end
  | AttendanceManagementPage i =>
      show (st_header "Attendance Management") ;;>
      match i with
      | MarkAttendancePage student_name roll_number status submitted =>
          mark_attendance_page now student_name roll_number status submitted
      | ViewAttendancePage => view_attendance_page
      end
  end.

(** A run starts on an empty screen, with the database as the runs
    before have left it. *)
Definition rerun (now : datetime) (u : input) (d : database)
  : outcome NoneType * session :=
  script now u {| conn := d; screen := [] |}.

(** The database after a sequence of runs. *)
Definition after_runs (runs : list (datetime * input)) (d : database)
  : database :=
  fold_left (fun d' r => conn (snd (rerun (fst r) (snd r) d'))) runs d.

(** *** Predicates of the statements about the script *)

(** The database once [create_tables] has run on it. *)
Definition started (d : database) : database :=
  db (snd (create_tables {| db := d; page := [] |})).

(** The rows of a table, none if it does not exist. *)
Definition table_rows {R : Type} (t : option (table R)) : list R :=
  match t with
  | None => []
  | Some t' => rows t'
  end.

(** The run submits one of the two forms. *)
Definition submits (u : input) : bool :=
  match u with
  | LogbookPage (AddLogEntryPage _ _ _ _ submitted) => submitted
  | AttendanceManagementPage (MarkAttendancePage _ _ _ submitted) => submitted
  | _ => false
  end.


(** The calendar order of two days. *)
Definition day_le (a b : datetime) : Prop :=
  (year a < year b
   \/ (year a = year b
       /\ (month a < month b \/ (month a = month b /\ day a <= day b))))%nat.

(** Fields that [strftime_Y_m_d] prints in full: every [datetime]
    object has such. *)
Definition printable (t : datetime) : Prop :=
  (year t < 10 ^ 4 /\ month t < 10 ^ 2 /\ day t < 10 ^ 2)%nat.

(** A logbook row as the form of the script writes them. *)
Definition logbook_row_from_form (r : Logbook.row) : Prop :=
  In (Logbook.activity r) ["Lecture"; "Meeting"; "Task"; "Event"; "Other"]
  /\ is_iso_date (Logbook.date r) = true.

(** An attendance row as the form of the script writes them. *)
Definition attendance_row_from_form (r : Attendance.row) : Prop :=
  In (Attendance.status r) ["Present"; "Absent"]
  /\ is_iso_date (Attendance.date r) = true.

(** All rows of a table, if it exists, satisfy [P]. *)
Definition all_rows {R : Type} (P : R -> Prop) (t : option (table R)) : Prop :=
  match t with
  | None => True
  | Some t' => Forall P (rows t')
  end.

(** The table exists, its ids are 1, 2, ... in insertion order, and
    [sqlite_sequence] holds the number of its rows. *)
Definition ids_consecutive {R : Type} (rid : R -> Z) (t : option (table R))
  : Prop :=
  exists t',
    t = Some t'
    /\ map rid (rows t') = map Z.of_nat (List.seq 1 (List.length (rows t')))
    /\ seq t' = Z.of_nat (List.length (rows t')).

(** No character but white space. *)
Fixpoint blank (s : string) : bool :=
  match s with
  | EmptyString => true
  | String c s' => (is_space c && blank s')%bool
  end.

(** The text has a token of the vectorizer. *)
Definition has_token (doc : string) : bool :=
  match analyzer doc with
  | [] => false
  | _ => true
  end.

(** * Properties *)

(** ** The model at work *)

Example analyzer_example :
  analyzer "Weekly sync on Project-status, v2 a"
  = ["weekly"; "sync"; "on"; "project"; "status"; "v2"].
Proof. reflexivity. Qed.

Example fit_transform_example :
  fit_transform (CountVectorizer None) ["weekly sync"; "Sync the sync"]
  = Return (csr_matrix [[1; 0; 1]; [2; 1; 0]]).
Proof. reflexivity. Qed.

Example fit_transform_without_token :
  fit_transform (CountVectorizer None) ["a"; "? !"]
  = Raise (ValueError
      "empty vocabulary; perhaps the documents only contain stop words").
Proof. reflexivity. Qed.

Example transform_of_a_matrix :
  transform (csr_matrix [[1; 0; 1]; [2; 1; 0]]) ["weekly sync"]
  = Raise (AttributeError "transform").
Proof. reflexivity. Qed.

Example strftime_Y_m_d_example :
  strftime_Y_m_d (Datetime 2024 3 5 9 15 0) = "2024-03-05".
Proof. reflexivity. Qed.

Example autoincrement_exhausted :
  autoincrement Logbook.id
    {| rows := [Logbook.Row max_rowid "n" "a" "d" "x"]; seq := max_rowid |}
  = Raise (OperationalError "database or disk is full").
Proof. reflexivity. Qed.

Example get_log_entries_example :
  fst (get_log_entries
         (run_calls [AddLogEntry "Alice" "Meeting" "2024-01-01" "weekly sync";
                     AddLogEntry "Bob" "Lecture" "2024-02-10" "graphs";
                     AddLogEntry "Carol" "Task" "2023-12-24" "grading"]
            fresh_world))
  = Return [Logbook.Row 2 "Bob" "Lecture" "2024-02-10" "graphs";
            Logbook.Row 1 "Alice" "Meeting" "2024-01-01" "weekly sync";
            Logbook.Row 3 "Carol" "Task" "2023-12-24" "grading"].
Proof. reflexivity. Qed.

Example add_log_entry_without_table :
  add_log_entry "Alice" "Meeting" "2024-01-01" "weekly sync"
    {| db := new_database; page := [] |}
  = (Raise (OperationalError "no such table: logbook"),
     {| db := new_database; page := [] |}).
Proof. reflexivity. Qed.

(** ** The order on dates *)

Lemma ascii_compare_refl (c : ascii) : Ascii.compare c c = Eq.
Proof. unfold Ascii.compare. apply N.compare_refl. Qed.

Lemma ascii_compare_trans (c : comparison) (x y z : ascii) :
  Ascii.compare x y = c -> Ascii.compare y z = c -> Ascii.compare x z = c.
Proof.
  unfold Ascii.compare. destruct c; intros Hxy Hyz.
  - apply N.compare_eq_iff in Hxy, Hyz. apply N.compare_eq_iff. congruence.
  - rewrite N.compare_lt_iff in *. lia.
  - rewrite N.compare_gt_iff in *. lia.
Qed.

Lemma string_compare_refl (s : string) : String.compare s s = Eq.
Proof.
  induction s as [|c s IH]; simpl; [reflexivity|].
  now rewrite ascii_compare_refl.
Qed.

Lemma string_compare_lt_trans (s1 s2 s3 : string) :
  String.compare s1 s2 = Lt -> String.compare s2 s3 = Lt ->
  String.compare s1 s3 = Lt.
Proof.
  revert s2 s3.
  induction s1 as [|c1 s1 IH]; intros [|c2 s2] [|c3 s3]; simpl;
    try discriminate; try reflexivity.
  destruct (Ascii.compare c1 c2) eqn:H12; try discriminate;
    destruct (Ascii.compare c2 c3) eqn:H23; try discriminate; intros Ha Hb.
  - rewrite (ascii_compare_trans Eq c1 c2 c3 H12 H23). eauto.
  - apply Ascii.compare_eq_iff in H12. subst. now rewrite H23.
  - apply Ascii.compare_eq_iff in H23. subst. now rewrite H12.
  - now rewrite (ascii_compare_trans Lt c1 c2 c3 H12 H23).
Qed.

Lemma date_leb_refl (d : string) : date_leb d d = true.
Proof. unfold date_leb, String.leb. now rewrite string_compare_refl. Qed.

Lemma date_leb_total (d1 d2 : string) :
  date_leb d1 d2 = false -> date_leb d2 d1 = true.
Proof.
  intros H. destruct (String.leb_total d1 d2) as [H'|H']; [|exact H'].
  unfold date_leb in H. congruence.
Qed.

Lemma date_leb_trans (d1 d2 d3 : string) :
  date_leb d1 d2 = true -> date_leb d2 d3 = true -> date_leb d1 d3 = true.
Proof.
  unfold date_leb, String.leb.
  destruct (String.compare d1 d2) eqn:H12; try discriminate;
    destruct (String.compare d2 d3) eqn:H23; try discriminate; intros _ _.
  - apply String.compare_eq_iff in H12, H23. subst.
    now rewrite string_compare_refl.
  - apply String.compare_eq_iff in H12. subst. now rewrite H23.
  - apply String.compare_eq_iff in H23. subst. now rewrite H12.
  - now rewrite (string_compare_lt_trans _ _ _ H12 H23).
Qed.

(** ** ORDER BY: a sorted rearrangement of the table *)

Section OrderBy.

Context {R : Type}.
Variable date : R -> string.

Lemma sorter_insert_perm (r : R) (l : list R) :
  Permutation (r :: l) (sorter_insert date r l).
Proof.
  induction l as [|r' l IH]; simpl; [reflexivity|].
  destruct (date_leb (date r') (date r)); [reflexivity|].
  rewrite perm_swap. now apply perm_skip.
Qed.

Lemma order_by_date_desc_perm (l : list R) :
  Permutation l (order_by_date_desc date l).
Proof.
  induction l as [|r l IH]; simpl; [constructor|].
  rewrite <- sorter_insert_perm. now apply perm_skip.
Qed.

Lemma sorter_insert_sorted (r : R) (l : list R) :
  StronglySorted (date_desc date) l ->
  StronglySorted (date_desc date) (sorter_insert date r l).
Proof.
  induction 1 as [|r' l Hl IH Hall]; simpl.
  - repeat constructor.
  - destruct (date_leb (date r') (date r)) eqn:Hle.
    + constructor; [now constructor|].
      constructor; [exact Hle|].
      eapply Forall_impl; [|exact Hall].
      intros x Hx. unfold date_desc in *. eapply date_leb_trans; eauto.
    + constructor; [exact IH|].
      eapply Permutation_Forall; [apply sorter_insert_perm|].
      constructor; [|exact Hall].
      now apply date_leb_total.
Qed.

Lemma order_by_date_desc_sorted (l : list R) :
  StronglySorted (date_desc date) (order_by_date_desc date l).
Proof.
  induction l as [|r l IH]; simpl; [constructor|].
  now apply sorter_insert_sorted.
Qed.

(** Rows of one and the same date come back in scan order. *)
Lemma order_by_date_desc_same_date (d : string) (l : list R) :
  Forall (fun r => date r = d) l -> order_by_date_desc date l = l.
Proof.
  induction 1 as [|r l Hr Hl IH]; simpl; [reflexivity|].
  rewrite IH. destruct Hl as [|r' l Hr' Hl]; simpl; [reflexivity|].
  now rewrite Hr, Hr', date_leb_refl.
Qed.

End OrderBy.

(** ** Rowids *)

Section Rowids.

Context {R : Type}.
Variable rid : R -> Z.

Lemma largest_rowid_bound (l : list R) :
  0 <= largest_rowid rid l /\ Forall (fun r => rid r <= largest_rowid rid l) l.
Proof.
  induction l as [|r l [IH0 IH]]; simpl; [split; [lia|constructor]|].
  split; [lia|]. constructor; [lia|].
  eapply Forall_impl; [|exact IH]. simpl. intros; lia.
Qed.

Lemma largest_rowid_app (l : list R) (r : R) :
  largest_rowid rid (l ++ [r]) = Z.max (largest_rowid rid l) (Z.max (rid r) 0).
Proof.
  induction l as [|r' l IH]; simpl; [lia|]. rewrite IH. lia.
Qed.

Lemma strongly_sorted_snoc (l : list Z) (x : Z) :
  StronglySorted Z.lt l -> Forall (fun y => y < x) l ->
  StronglySorted Z.lt (l ++ [x]).
Proof.
  induction 1 as [|y l Hl IH Hall]; intros Hx; simpl.
  - repeat constructor.
  - inversion Hx; subst. constructor; [now apply IH|].
    apply Forall_app. split; [exact Hall|]. now constructor.
Qed.

(** What [insert_into] does when rowids are left. *)
Lemma insert_into_ok (mk : Z -> R) (t : table R) :
  Z.max (seq t) (largest_rowid rid (rows t)) < max_rowid ->
  insert_into rid mk t
  = Return {| rows := rows t ++ [mk (Z.max (seq t) (largest_rowid rid (rows t)) + 1)];
              seq := Z.max (seq t) (largest_rowid rid (rows t)) + 1 |}.
Proof.
  intros H. unfold insert_into, autoincrement.
  destruct (Z.leb_spec max_rowid (Z.max (seq t) (largest_rowid rid (rows t))));
    [lia|reflexivity].
Qed.

(** An [INSERT] either fails and yields no table, or appends one row
    whose rowid is above every rowid of the table. *)
Lemma insert_into_inv (mk : Z -> R) (t t' : table R) :
  insert_into rid mk t = Return t' ->
  exists i, rows t' = rows t ++ [mk i] /\ seq t' = i
            /\ Forall (fun r => rid r < i) (rows t).
Proof.
  unfold insert_into, autoincrement.
  destruct (Z.leb_spec max_rowid (Z.max (seq t) (largest_rowid rid (rows t))));
    [discriminate|].
  intros [= <-]. eexists. repeat split.
  eapply Forall_impl; [|apply largest_rowid_bound]. simpl. intros; lia.
Qed.

End Rowids.

(** ** The functions of the record store, case by case *)

Ltac run_store :=
  unfold add_log_entry, mark_attendance, get_log_entries, get_attendance,
    with_conn, bind, get_db, put_db, lift, raise, ret; simpl.

Lemma add_log_entry_ok (name activity date description : string)
    (w : world) (t : table Logbook.row) :
  logbook (db w) = Some t ->
  Z.max (seq t) (largest_rowid Logbook.id (rows t)) < max_rowid ->
  add_log_entry name activity date description w
  = (Return PyNone,
     {| db := {| logbook := Some
                   {| rows := rows t ++
                        [Logbook.Row
                           (Z.max (seq t) (largest_rowid Logbook.id (rows t)) + 1)
                           name activity date description];
                      seq := Z.max (seq t) (largest_rowid Logbook.id (rows t)) + 1 |};
                 attendance := attendance (db w) |};
        page := page w |}).
Proof.
  intros Ht Hfree. run_store. rewrite Ht.
  now rewrite (insert_into_ok Logbook.id _ t Hfree).
Qed.

Lemma mark_attendance_ok (now : datetime)
    (student_name roll_number status : string)
    (w : world) (t : table Attendance.row) :
  attendance (db w) = Some t ->
  Z.max (seq t) (largest_rowid Attendance.id (rows t)) < max_rowid ->
  mark_attendance now student_name roll_number status w
  = (Return PyNone,
     {| db := {| logbook := logbook (db w);
                 attendance := Some
                   {| rows := rows t ++
                        [Attendance.Row
                           (Z.max (seq t) (largest_rowid Attendance.id (rows t)) + 1)
                           student_name roll_number (strftime_Y_m_d now) status];
                      seq := Z.max (seq t)
                               (largest_rowid Attendance.id (rows t)) + 1 |} |};
        page := page w |}).
Proof.
  intros Ht Hfree. run_store. rewrite Ht.
  now rewrite (insert_into_ok Attendance.id _ t Hfree).
Qed.

(** Whatever its outcome, [add_log_entry] leaves the page and the
    attendance table alone, and the logbook table either as it was or
    with one row inserted. *)
Lemma add_log_entry_effect (name activity date description : string)
    (w : world) :
  let w' := snd (add_log_entry name activity date description w) in
  page w' = page w /\ attendance (db w') = attendance (db w)
  /\ (logbook (db w') = logbook (db w)
      \/ exists t t',
           logbook (db w) = Some t /\ logbook (db w') = Some t'
           /\ insert_into Logbook.id
                (fun i => Logbook.Row i name activity date description) t
              = Return t').
Proof.
  run_store. destruct (logbook (db w)) as [t|] eqn:Ht; simpl; [|now auto].
  destruct (insert_into _ _ t) as [t'|e] eqn:Hins; simpl; [|now auto].
  repeat split. right. now exists t, t'.
Qed.

Lemma mark_attendance_effect (now : datetime)
    (student_name roll_number status : string) (w : world) :
  let w' := snd (mark_attendance now student_name roll_number status w) in
  page w' = page w /\ logbook (db w') = logbook (db w)
  /\ (attendance (db w') = attendance (db w)
      \/ exists t t',
           attendance (db w) = Some t /\ attendance (db w') = Some t'
           /\ insert_into Attendance.id
                (fun i => Attendance.Row i student_name roll_number
                            (strftime_Y_m_d now) status) t
              = Return t').
Proof.
  run_store. destruct (attendance (db w)) as [t|] eqn:Ht; simpl; [|now auto].
  destruct (insert_into _ _ t) as [t'|e] eqn:Hins; simpl; [|now auto].
  repeat split. right. now exists t, t'.
Qed.

Lemma get_log_entries_db (w : world) : db (snd (get_log_entries w)) = db w.
Proof. run_store. now destruct (logbook (db w)). Qed.

Lemma get_attendance_db (w : world) : db (snd (get_attendance w)) = db w.
Proof. run_store. now destruct (attendance (db w)). Qed.

Lemma get_log_entries_ok (w : world) (t : table Logbook.row) :
  logbook (db w) = Some t ->
  get_log_entries w = (Return (order_by_date_desc Logbook.date (rows t)), w).
Proof. intros Ht. run_store. now rewrite Ht. Qed.

Lemma get_attendance_ok (w : world) (t : table Attendance.row) :
  attendance (db w) = Some t ->
  get_attendance w = (Return (order_by_date_desc Attendance.date (rows t)), w).
Proof. intros Ht. run_store. now rewrite Ht. Qed.

(** ** The similarity advisor on a frame with rows *)

(** Line 70 binds [vectorizer] to the matrix [fit_transform] returns.
    So on a frame with at least one row, either [fit_transform] refuses
    an empty vocabulary, or line 73 looks up [transform] on the
    matrix; in both cases the call raises, before anything is
    rendered. *)
Lemma ai_suggestions_rows (new_description : string) (r : Logbook.row)
    (logbook_df : list Logbook.row) (w : world) :
  ai_suggestions new_description (r :: logbook_df) w
  = (Raise
       match build_vocabulary (map Logbook.description (r :: logbook_df)) with
       | [] => ValueError
           "empty vocabulary; perhaps the documents only contain stop words"
       | _ => AttributeError "transform"
       end, w).
Proof.
  unfold ai_suggestions, bind, lift, fit_transform.
  now destruct (build_vocabulary _).
Qed.

Lemma ai_suggestions_db (new_description : string)
    (logbook_df : list Logbook.row) (w : world) :
  db (snd (ai_suggestions new_description logbook_df w)) = db w.
Proof.
  destruct logbook_df as [|r df]; [reflexivity|].
  now rewrite ai_suggestions_rows.
Qed.

(** ** Sequences of [add_log_entry] calls *)

Lemma fresh_world_eq :
  fresh_world
  = {| db := {| logbook := Some {| rows := []; seq := 0 |};
                attendance := Some {| rows := []; seq := 0 |} |};
       page := [] |}.
Proof. reflexivity. Qed.

Lemma add_log_entries_ok (entries : list (string * string * string * string)) :
  forall (w : world) (t : table Logbook.row),
    logbook (db w) = Some t ->
    Z.max (seq t) (largest_rowid Logbook.id (rows t))
      + Z.of_nat (List.length entries) <= max_rowid ->
    exists t',
      add_log_entries entries w
      = (Return PyNone,
         {| db := {| logbook := Some t'; attendance := attendance (db w) |};
            page := page w |})
      /\ map log_fields (rows t') = map log_fields (rows t) ++ entries.
Proof.
  induction entries as [|[[[name activity] date] description] entries IH];
    intros w t Ht Hfree.
  - exists t. destruct w as [[lb att] pg]. simpl in *. subst lb.
    now rewrite app_nil_r.
  - cbn [List.length] in Hfree.
    pose proof (largest_rowid_bound Logbook.id (rows t)) as [Hpos _].
    cbn [add_log_entries]. unfold bind at 1.
    rewrite (add_log_entry_ok _ _ _ _ w t Ht) by lia.
    match goal with
    | |- context [add_log_entries entries ?w1] =>
        destruct (IH w1 _ eq_refl) as [t' [Hrun Hrows]]
    end.
    + cbn [rows seq]. rewrite largest_rowid_app. cbn [Logbook.id]. lia.
    + exists t'. split; [exact Hrun|].
      rewrite Hrows. cbn [rows]. rewrite map_app, <- app_assoc. reflexivity.
Qed.

(** C1: after any sequence of [add_log_entry] calls on the store as it
    is right after start-up (short enough for the rowids to last, that
    is of at most 2^63 - 1 calls), every call returns, and
    [get_log_entries] then returns a frame that holds exactly the
    entries added - the same tuples (name, activity, date,
    description), each as many times as it was added, so as many rows
    as calls - ordered by date descending under the byte order of the
    text. *)
Theorem C1_get_log_entries_returns_the_added_entries
    (entries : list (string * string * string * string)) :
  Z.of_nat (List.length entries) <= max_rowid ->
  exists (w : world) (df : list Logbook.row),
    add_log_entries entries fresh_world = (Return PyNone, w)
    /\ get_log_entries w = (Return df, w)
    /\ Permutation (map log_fields df) entries
    /\ List.length df = List.length entries
    /\ StronglySorted (date_desc Logbook.date) df.
Proof.
  intros Hlen.
  destruct (add_log_entries_ok entries fresh_world {| rows := []; seq := 0 |}
              eq_refl) as [t' [Hrun Hrows]]; [simpl; lia|].
  simpl in Hrows.
  eexists. exists (order_by_date_desc Logbook.date (rows t')).
  split; [exact Hrun|]. split; [now apply get_log_entries_ok|].
  assert (Hperm : Permutation (map log_fields
                     (order_by_date_desc Logbook.date (rows t'))) entries).
  { rewrite <- Hrows. apply Permutation_map, Permutation_sym,
      order_by_date_desc_perm. }
  split; [exact Hperm|]. split.
  - apply Permutation_length in Hperm. now rewrite length_map in Hperm.
  - apply order_by_date_desc_sorted.
Qed.

Lemma C1_get_log_entries_returns_the_added_entries_witness :
  exists (w : world) (df : list Logbook.row),
    add_log_entries
      [("Alice", "Meeting", "2024-01-01", "weekly sync on project status");
       ("Bob", "Lecture", "2024-02-10", "graph algorithms");
       ("Carol", "Task", "2023-12-24", "grade the homework")]
      fresh_world = (Return PyNone, w)
    /\ get_log_entries w = (Return df, w)
    /\ Permutation (map log_fields df)
         [("Alice", "Meeting", "2024-01-01", "weekly sync on project status");
          ("Bob", "Lecture", "2024-02-10", "graph algorithms");
          ("Carol", "Task", "2023-12-24", "grade the homework")]
    /\ List.length df = 3%nat
    /\ StronglySorted (date_desc Logbook.date) df.
Proof.
  apply (C1_get_log_entries_returns_the_added_entries
           [("Alice", "Meeting", "2024-01-01", "weekly sync on project status");
            ("Bob", "Lecture", "2024-02-10", "graph algorithms");
            ("Carol", "Task", "2023-12-24", "grade the homework")]).
  vm_compute. discriminate.
Defined.

(** ** The date of an attendance row *)

Lemma is_digit_digit (n : nat) : is_digit (digit n) = true.
Proof.
  unfold digit.
  pose proof (Nat.mod_upper_bound n 10 ltac:(discriminate)) as Hlt.
  remember (n mod 10)%nat as k eqn:Hk. clear Hk.
  do 10 (destruct k as [|k]; [reflexivity|]). lia.
Qed.

Lemma strftime_Y_m_d_shape (t : datetime) :
  is_iso_date (strftime_Y_m_d t) = true.
Proof.
  unfold strftime_Y_m_d. cbn [zero_padded String.append is_iso_date].
  rewrite !is_digit_digit. reflexivity.
Qed.

Lemma digit_value_digit (n : nat) : digit_value (digit n) = (n mod 10)%nat.
Proof.
  unfold digit_value, digit.
  pose proof (Nat.mod_upper_bound n 10 ltac:(discriminate)) as Hlt.
  rewrite nat_ascii_embedding by lia. lia.
Qed.

(** The printed date writes the year, the month and the day of the
    datetime. *)
Lemma strftime_Y_m_d_day (t : datetime) :
  (year t < 10 ^ 4)%nat -> (month t < 10 ^ 2)%nat -> (day t < 10 ^ 2)%nat ->
  day_of_iso_date (strftime_Y_m_d t) = Some (year t, month t, day t).
Proof.
  intros Hy Hm Hd. unfold day_of_iso_date.
  rewrite strftime_Y_m_d_shape. unfold strftime_Y_m_d.
  cbn [zero_padded String.append]. rewrite !digit_value_digit.
  change (10 ^ 4)%nat with (10 * (10 * (10 * 10)))%nat in Hy.
  change (10 ^ 2)%nat with (10 * 10)%nat in Hm, Hd.
  f_equal. f_equal; [f_equal|].
  - pose proof (Nat.div_mod_eq (year t) 10).
    pose proof (Nat.div_mod_eq (year t / 10) 10).
    pose proof (Nat.div_mod_eq (year t / 10 / 10) 10).
    assert (year t / 10 / 10 / 10 < 10)%nat
      by (repeat apply Nat.Div0.div_lt_upper_bound; lia).
    rewrite (Nat.mod_small (year t / 10 / 10 / 10) 10) by assumption. lia.
  - pose proof (Nat.div_mod_eq (month t) 10).
    assert (month t / 10 < 10)%nat
      by (apply Nat.Div0.div_lt_upper_bound; lia).
    rewrite (Nat.mod_small (month t / 10) 10) by assumption. lia.
  - pose proof (Nat.div_mod_eq (day t) 10).
    assert (day t / 10 < 10)%nat
      by (apply Nat.Div0.div_lt_upper_bound; lia).
    rewrite (Nat.mod_small (day t / 10) 10) by assumption. lia.
Qed.

Lemma calendar_day_bounds (t : datetime) :
  calendar_day t ->
  (year t < 10 ^ 4)%nat /\ (month t < 10 ^ 2)%nat /\ (day t < 10 ^ 2)%nat.
Proof.
  intros ((_ & Hy) & (_ & Hm) & (_ & Hd)).
  change (10 ^ 2)%nat with 100%nat. repeat split; [exact Hy|lia|lia].
Qed.

(** C4: a [mark_attendance] call on a store whose attendance table
    exists and has a rowid left, at a reading [now] of the clock,
    returns and appends to the table one row whose date is the day of
    [now]: a text of shape YYYY-MM-DD that writes the year, the month
    and the day of [now].  The other columns are the three arguments,
    and the function has no date argument. *)
Theorem C4_mark_attendance_stores_the_date_of_the_call
    (now : datetime) (student_name roll_number status : string)
    (w : world) (t : table Attendance.row) :
  calendar_day now ->
  attendance (db w) = Some t ->
  Z.max (seq t) (largest_rowid Attendance.id (rows t)) < max_rowid ->
  exists (i : Z) (date : string) (w' : world),
    mark_attendance now student_name roll_number status w = (Return PyNone, w')
    /\ attendance (db w')
       = Some {| rows := rows t ++
                   [Attendance.Row i student_name roll_number date status];
                 seq := i |}
    /\ is_iso_date date = true
    /\ day_of_iso_date date = Some (year now, month now, day now).
Proof.
  intros Hnow Ht Hfree.
  destruct (calendar_day_bounds now Hnow) as (Hy & Hm & Hd).
  exists (Z.max (seq t) (largest_rowid Attendance.id (rows t)) + 1),
    (strftime_Y_m_d now).
  eexists.
  split; [now apply mark_attendance_ok with (t := t)|].
  split; [reflexivity|].
  split; [apply strftime_Y_m_d_shape|now apply strftime_Y_m_d_day].
Qed.

Lemma C4_mark_attendance_stores_the_date_of_the_call_witness :
  exists (i : Z) (date : string) (w' : world),
    mark_attendance (Datetime 2024 3 5 9 15 0) "Bob" "R101" "Present"
      fresh_world = (Return PyNone, w')
    /\ attendance (db w')
       = Some {| rows := [] ++ [Attendance.Row i "Bob" "R101" date "Present"];
                 seq := i |}
    /\ is_iso_date date = true
    /\ day_of_iso_date date = Some (2024, 3, 5)%nat.
Proof.
  apply (C4_mark_attendance_stores_the_date_of_the_call
           (Datetime 2024 3 5 9 15 0) "Bob" "R101" "Present" fresh_world
           {| rows := []; seq := 0 |}).
  - unfold calendar_day. cbn [year month day].
    repeat split; apply Nat.leb_le; vm_compute; reflexivity.
  - reflexivity.
  - reflexivity.
Defined.

(** The date that [mark_attendance] stores, on a store just started. *)
Example mark_attendance_example :
  attendance (db (snd (mark_attendance (Datetime 1999 12 31 23 59 59)
                         "Bob" "R101" "Present" fresh_world)))
  = Some {| rows := [Attendance.Row 1 "Bob" "R101" "1999-12-31" "Present"];
            seq := 1 |}.
Proof. reflexivity. Qed.

(** ** Append-only tables *)

Lemma rows_kept_refl {R : Type} (t : option (table R)) : rows_kept t t.
Proof.
  destruct t as [t|]; simpl; [|exact I].
  exists t, []. now rewrite app_nil_r.
Qed.

Lemma rows_kept_trans {R : Type} (t1 t2 t3 : option (table R)) :
  rows_kept t1 t2 -> rows_kept t2 t3 -> rows_kept t1 t3.
Proof.
  destruct t1 as [t1|]; simpl; [|trivial].
  intros [t2' [a1 [-> H1]]]. simpl. intros [t3' [a2 [-> H2]]].
  exists t3', (a1 ++ a2). split; [reflexivity|].
  now rewrite H2, H1, app_assoc.
Qed.

Lemma rows_kept_same {R : Type} (t1 t2 : option (table R)) :
  t2 = t1 -> rows_kept t1 t2.
Proof. intros ->. apply rows_kept_refl. Qed.

Lemma run_call_rows_kept (c : call) (w : world) :
  rows_kept (logbook (db w)) (logbook (db (run_call c w)))
  /\ rows_kept (attendance (db w)) (attendance (db (run_call c w))).
Proof.
  destruct c as [n a d ds| |now sn rn st| |q df]; cbn [run_call].
  - destruct (add_log_entry_effect n a d ds w) as [_ [Hatt Hlog]].
    split; [|now apply rows_kept_same].
    destruct Hlog as [Hlog|[t [t' [Ht [Ht' Hins]]]]];
      [now apply rows_kept_same|].
    rewrite Ht, Ht'. simpl.
    apply insert_into_inv in Hins. destruct Hins as [i [Hrows _]].
    now exists t', [Logbook.Row i n a d ds].
  - rewrite get_log_entries_db. split; apply rows_kept_refl.
  - destruct (mark_attendance_effect now sn rn st w) as [_ [Hlog Hatt]].
    split; [now apply rows_kept_same|].
    destruct Hatt as [Hatt|[t [t' [Ht [Ht' Hins]]]]];
      [now apply rows_kept_same|].
    rewrite Ht, Ht'. simpl.
    apply insert_into_inv in Hins. destruct Hins as [i [Hrows _]].
    now exists t', [Attendance.Row i sn rn (strftime_Y_m_d now) st].
  - rewrite get_attendance_db. split; apply rows_kept_refl.
  - rewrite ai_suggestions_db. split; apply rows_kept_refl.
Qed.

Lemma run_calls_rows_kept (cs : list call) :
  forall w : world,
    rows_kept (logbook (db w)) (logbook (db (run_calls cs w)))
    /\ rows_kept (attendance (db w)) (attendance (db (run_calls cs w))).
Proof.
  induction cs as [|c cs IH]; intros w; simpl.
  - split; apply rows_kept_refl.
  - destruct (run_call_rows_kept c w) as [H1 H2].
    destruct (IH (run_call c w)) as [H3 H4].
    split; eapply rows_kept_trans; eauto.
Qed.

Lemma strftime_Y_m_d_same_day (now1 now2 : datetime) :
  year now1 = year now2 -> month now1 = month now2 -> day now1 = day now2 ->
  strftime_Y_m_d now1 = strftime_Y_m_d now2.
Proof. unfold strftime_Y_m_d. now intros -> -> ->. Qed.

(** C5, as the text has it, fails: of the two rows marked for Bob on
    one day, [get_attendance] returns the older one ("Present") first,
    not the most recent one. *)
Lemma C5_same_day_rows_come_back_oldest_first :
  let w := run_calls
             [MarkAttendance (Datetime 2024 3 5 9 15 0) "Bob" "R101" "Present";
              MarkAttendance (Datetime 2024 3 5 16 40 0) "Bob" "R101" "Absent"]
             fresh_world in
  fst (get_attendance w)
  = Return [Attendance.Row 1 "Bob" "R101" "2024-03-05" "Present";
            Attendance.Row 2 "Bob" "R101" "2024-03-05" "Absent"]
  /\ fst (get_attendance w)
     <> Return [Attendance.Row 2 "Bob" "R101" "2024-03-05" "Absent";
                Attendance.Row 1 "Bob" "R101" "2024-03-05" "Present"].
Proof. split; [reflexivity|discriminate]. Qed.

(** C5, amended: no operation overwrites or removes a row - after any
    sequence of calls each table of the store still holds the rows it
    held, in place, possibly followed by new ones; and after marking
    ("Bob","R101","Present") and then ("Bob","R101","Absent") on one
    day, [get_attendance] returns both rows, which tie on the date and
    come back in insertion order, "Present" before "Absent". *)
Theorem C5_rows_are_kept_and_same_day_rows_in_insertion_order
    (cs : list call) (w0 : world) (now1 now2 : datetime) :
  year now1 = year now2 -> month now1 = month now2 -> day now1 = day now2 ->
  (rows_kept (logbook (db w0)) (logbook (db (run_calls cs w0)))
   /\ rows_kept (attendance (db w0)) (attendance (db (run_calls cs w0))))
  /\ let w := run_calls [MarkAttendance now1 "Bob" "R101" "Present";
                         MarkAttendance now2 "Bob" "R101" "Absent"]
                fresh_world in
     get_attendance w
     = (Return [Attendance.Row 1 "Bob" "R101" (strftime_Y_m_d now1) "Present";
                Attendance.Row 2 "Bob" "R101" (strftime_Y_m_d now2) "Absent"],
        w).
Proof.
  intros Hy Hm Hd. split; [apply run_calls_rows_kept|].
  cbv zeta.
  erewrite get_attendance_ok by reflexivity.
  f_equal. f_equal.
  apply order_by_date_desc_same_date with (d := strftime_Y_m_d now1).
  repeat constructor; simpl.
  symmetry. now apply strftime_Y_m_d_same_day.
Qed.

Lemma C5_rows_are_kept_and_same_day_rows_in_insertion_order_witness :
  let cs := [AddLogEntry "Alice" "Meeting" "2024-01-01" "weekly sync";
             MarkAttendance (Datetime 2024 3 4 8 0 0) "Eve" "R007" "Present";
             GetAttendance] in
  let now1 := Datetime 2024 3 5 9 15 0 in
  let now2 := Datetime 2024 3 5 16 40 0 in
  (rows_kept (logbook (db fresh_world))
     (logbook (db (run_calls cs fresh_world)))
   /\ rows_kept (attendance (db fresh_world))
        (attendance (db (run_calls cs fresh_world))))
  /\ let w := run_calls [MarkAttendance now1 "Bob" "R101" "Present";
                         MarkAttendance now2 "Bob" "R101" "Absent"]
                fresh_world in
     get_attendance w
     = (Return [Attendance.Row 1 "Bob" "R101" (strftime_Y_m_d now1) "Present";
                Attendance.Row 2 "Bob" "R101" (strftime_Y_m_d now2) "Absent"],
        w).
Proof.
  apply (C5_rows_are_kept_and_same_day_rows_in_insertion_order
           [AddLogEntry "Alice" "Meeting" "2024-01-01" "weekly sync";
            MarkAttendance (Datetime 2024 3 4 8 0 0) "Eve" "R007" "Present";
            GetAttendance]
           fresh_world (Datetime 2024 3 5 9 15 0) (Datetime 2024 3 5 16 40 0));
    reflexivity.
Defined.

(** ** Ids *)

Lemma strongly_sorted_lt_nodup (l : list Z) :
  StronglySorted Z.lt l -> NoDup l.
Proof.
  induction 1 as [|x l Hl IH Hall]; constructor; [|exact IH].
  intros Hin. rewrite Forall_forall in Hall. specialize (Hall x Hin). lia.
Qed.

Lemma insert_into_ids {R : Type} (rid : R -> Z) (mk : Z -> R)
    (t t' : table R) :
  (forall i, rid (mk i) = i) ->
  insert_into rid mk t = Return t' ->
  StronglySorted Z.lt (map rid (rows t)) ->
  StronglySorted Z.lt (map rid (rows t')).
Proof.
  intros Hmk Hins Hsorted.
  apply insert_into_inv in Hins. destruct Hins as [i [Hrows [_ Hbelow]]].
  rewrite Hrows, map_app. cbn [map]. rewrite Hmk.
  apply strongly_sorted_snoc; [exact Hsorted|].
  now rewrite Forall_map.
Qed.

Lemma run_call_ids_sorted (c : call) (w : world) :
  ids_sorted Logbook.id (logbook (db w))
  /\ ids_sorted Attendance.id (attendance (db w)) ->
  ids_sorted Logbook.id (logbook (db (run_call c w)))
  /\ ids_sorted Attendance.id (attendance (db (run_call c w))).
Proof.
  intros [Hlog Hatt].
  destruct c as [n a d ds| |now sn rn st| |q df]; cbn [run_call].
  - destruct (add_log_entry_effect n a d ds w) as [_ [Ha Hl]].
    rewrite Ha. split; [|exact Hatt].
    destruct Hl as [->|[t [t' [Ht [-> Hins]]]]]; [exact Hlog|].
    exists t'. split; [reflexivity|].
    destruct Hlog as [t0 [Ht0 Hsorted]]. rewrite Ht in Ht0.
    injection Ht0 as <-.
    refine (insert_into_ids Logbook.id _ t t' _ Hins Hsorted). reflexivity.
  - now rewrite get_log_entries_db.
  - destruct (mark_attendance_effect now sn rn st w) as [_ [Hl Ha]].
    rewrite Hl. split; [exact Hlog|].
    destruct Ha as [->|[t [t' [Ht [-> Hins]]]]]; [exact Hatt|].
    exists t'. split; [reflexivity|].
    destruct Hatt as [t0 [Ht0 Hsorted]]. rewrite Ht in Ht0.
    injection Ht0 as <-.
    refine (insert_into_ids Attendance.id _ t t' _ Hins Hsorted). reflexivity.
  - now rewrite get_attendance_db.
  - now rewrite ai_suggestions_db.
Qed.

Lemma run_calls_ids_sorted (cs : list call) :
  forall w : world,
    ids_sorted Logbook.id (logbook (db w))
    /\ ids_sorted Attendance.id (attendance (db w)) ->
    ids_sorted Logbook.id (logbook (db (run_calls cs w)))
    /\ ids_sorted Attendance.id (attendance (db (run_calls cs w))).
Proof.
  induction cs as [|c cs IH]; intros w Hw; simpl; [exact Hw|].
  now apply IH, run_call_ids_sorted.
Qed.

(** C8: in every state reached from the store as it is right after
    start-up by a sequence of calls (of [add_log_entry] and
    [mark_attendance], and of the three other functions as well), both
    tables exist and, in each, the ids are pairwise distinct and
    strictly increasing in insertion order. *)
Theorem C8_ids_are_unique_and_increasing (cs : list call) :
  ids_unique_increasing Logbook.id (logbook (db (run_calls cs fresh_world)))
  /\ ids_unique_increasing Attendance.id
       (attendance (db (run_calls cs fresh_world))).
Proof.
  destruct (run_calls_ids_sorted cs fresh_world) as [[t1 [H1 S1]] [t2 [H2 S2]]].
  - split; eexists; (split; [reflexivity|constructor]).
  - split; [exists t1|exists t2];
      (split; [assumption|split; [now apply strongly_sorted_lt_nodup|assumption]]).
Qed.

(** C10: the three readers leave the database - both tables - as it
    was; [add_log_entry] leaves the attendance table as it was, and
    [mark_attendance] the logbook table; this whether the call returns
    or raises. *)
Theorem C10_each_function_touches_its_own_table_only (w : world) :
  db (snd (get_log_entries w)) = db w
  /\ db (snd (get_attendance w)) = db w
  /\ (forall (new_description : string) (logbook_df : list Logbook.row),
        db (snd (ai_suggestions new_description logbook_df w)) = db w)
  /\ (forall name activity date description : string,
        attendance (db (snd (add_log_entry name activity date description w)))
        = attendance (db w))
  /\ (forall (now : datetime) (student_name roll_number status : string),
        logbook (db (snd (mark_attendance now student_name roll_number
                            status w)))
        = logbook (db w)).
Proof.
  split; [apply get_log_entries_db|].
  split; [apply get_attendance_db|].
  split; [intros; apply ai_suggestions_db|].
  split; intros.
  - apply add_log_entry_effect.
  - apply mark_attendance_effect.
Qed.

(** ** The similarity advisor *)

(** C3: on a frame without rows and for any query, [ai_suggestions]
    returns [None]: it raises nothing, selects no entry, and only
    renders the notice that no log is available. *)
Theorem C3_ai_suggestions_on_an_empty_frame_returns_None
    (new_description : string) (w : world) :
  ai_suggestions new_description [] w
  = (Return PyNone,
     {| db := db w;
        page := page w ++ [st_warning "No logs available for AI suggestions."] |}).
Proof. reflexivity. Qed.

(** C2, on the code: with the query "weekly sync on project status" and
    a frame whose single entry has this very description,
    [ai_suggestions] raises [AttributeError] at line 73 and renders
    neither the entry nor a score. *)
Theorem C2_ai_suggestions_raises_on_an_identical_description (w : world) :
  ai_suggestions "weekly sync on project status"
    [Logbook.Row 1 "Alice" "Meeting" "2024-01-01"
       "weekly sync on project status"] w
  = (Raise (AttributeError "transform"), w).
Proof. now rewrite ai_suggestions_rows. Qed.

(** C6, on the code: with two entries that are equally close to the
    query, [ai_suggestions] raises [AttributeError] at line 73; no
    entry is selected, neither the first nor another. *)
Theorem C6_ai_suggestions_raises_before_selecting (w : world) :
  ai_suggestions "project meeting"
    [Logbook.Row 1 "Alice" "Meeting" "2024-01-01" "project meeting";
     Logbook.Row 2 "Bob" "Meeting" "2024-01-02" "project meeting"] w
  = (Raise (AttributeError "transform"), w).
Proof. now rewrite ai_suggestions_rows. Qed.

(** C7, on the code: with a query that shares no term with the only
    entry, [ai_suggestions] raises [AttributeError] at line 73, before
    [cosine_similarity] is called; no score is computed. *)
Theorem C7_ai_suggestions_raises_before_scoring (w : world) :
  ai_suggestions "budget review"
    [Logbook.Row 1 "Alice" "Meeting" "2024-01-01"
       "weekly sync on project status"] w
  = (Raise (AttributeError "transform"), w).
Proof. now rewrite ai_suggestions_rows. Qed.

(** C9, on the code: with a query of blanks only and a frame with one
    entry, [ai_suggestions] takes no branch of its own - any other
    query has the same outcome - but that outcome is the
    [AttributeError] of line 73: the call fails and produces no
    result. *)
Theorem C9_ai_suggestions_raises_on_a_blank_query
    (new_description : string) (w : world) :
  ai_suggestions "   "
    [Logbook.Row 1 "Alice" "Meeting" "2024-01-01"
       "weekly sync on project status"] w
  = (Raise (AttributeError "transform"), w)
  /\ ai_suggestions new_description
       [Logbook.Row 1 "Alice" "Meeting" "2024-01-01"
          "weekly sync on project status"] w
     = ai_suggestions "   "
         [Logbook.Row 1 "Alice" "Meeting" "2024-01-01"
            "weekly sync on project status"] w.
Proof. now rewrite !ai_suggestions_rows. Qed.

(** * Further properties of the code *)

(** ** Ids count the insertions *)

Lemma largest_rowid_of_seq {R : Type} (rid : R -> Z) (l : list R) :
  forall s n : nat,
    map rid l = map Z.of_nat (List.seq s n) ->
    largest_rowid rid l
    = match n with O => 0 | S n' => Z.of_nat (s + n') end.
Proof.
  induction l as [|r l IH]; intros s [|n] H; simpl in H; try discriminate.
  - reflexivity.
  - injection H as Hr Hl. simpl. rewrite (IH _ _ Hl), Hr.
    destruct n as [|n]; lia.
Qed.

Lemma insert_into_consecutive {R : Type} (rid : R -> Z) (mk : Z -> R)
    (t t' : table R) :
  (forall i, rid (mk i) = i) ->
  insert_into rid mk t = Return t' ->
  ids_consecutive rid (Some t) -> ids_consecutive rid (Some t').
Proof.
  intros Hmk Hins [t0 [[= <-] [Hids Hseq]]].
  unfold insert_into, autoincrement in Hins.
  rewrite (largest_rowid_of_seq rid _ _ _ Hids), Hseq in Hins.
  destruct (Z.leb_spec max_rowid
              (Z.max (Z.of_nat (List.length (rows t)))
                 match List.length (rows t) with
                 | O => 0
                 | S n' => Z.of_nat (1 + n')
                 end)) as [_|_]; [discriminate|].
  injection Hins as <-. exists
    {| rows := rows t ++ [mk (Z.max (Z.of_nat (List.length (rows t)))
                  match List.length (rows t) with
                  | O => 0
                  | S n' => Z.of_nat (1 + n')
                  end + 1)];
       seq := Z.max (Z.of_nat (List.length (rows t)))
                match List.length (rows t) with
                | O => 0
                | S n' => Z.of_nat (1 + n')
                end + 1 |}.
  split; [reflexivity|]. cbn [rows seq].
  rewrite length_app, map_app, Nat.add_1_r, seq_S, map_app. cbn [List.length map].
  rewrite Hmk, Hids.
  assert (Hnew : Z.max (Z.of_nat (List.length (rows t)))
            match List.length (rows t) with
            | O => 0
            | S n' => Z.of_nat (1 + n')
            end + 1 = Z.of_nat (1 + List.length (rows t))).
  { destruct (List.length (rows t)); lia. }
  rewrite Hnew. split; [reflexivity|]. lia.
Qed.

Lemma run_call_ids_consecutive (c : call) (w : world) :
  ids_consecutive Logbook.id (logbook (db w))
  /\ ids_consecutive Attendance.id (attendance (db w)) ->
  ids_consecutive Logbook.id (logbook (db (run_call c w)))
  /\ ids_consecutive Attendance.id (attendance (db (run_call c w))).
Proof.
  intros [Hlog Hatt].
  destruct c as [n a d ds| |now sn rn st| |q df]; cbn [run_call].
  - destruct (add_log_entry_effect n a d ds w) as [_ [Ha Hl]].
    rewrite Ha. split; [|exact Hatt].
    destruct Hl as [->|[t [t' [Ht [-> Hins]]]]]; [exact Hlog|].
    rewrite Ht in Hlog.
    refine (insert_into_consecutive Logbook.id _ t t' _ Hins Hlog). reflexivity.
  - now rewrite get_log_entries_db.
  - destruct (mark_attendance_effect now sn rn st w) as [_ [Hl Ha]].
    rewrite Hl. split; [exact Hlog|].
    destruct Ha as [->|[t [t' [Ht [-> Hins]]]]]; [exact Hatt|].
    rewrite Ht in Hatt.
    refine (insert_into_consecutive Attendance.id _ t t' _ Hins Hatt).
    reflexivity.
  - now rewrite get_attendance_db.
  - now rewrite ai_suggestions_db.
Qed.

(** X2: In every state reached from the store right after start-up, the
    ids of each table are exactly 1, 2, ..., n in insertion order, n
    being the number of rows: the k-th entry added has id k, and no id
    is skipped, whatever calls failed in between. *)
Theorem ids_count_the_insertions (cs : list call) :
  ids_consecutive Logbook.id (logbook (db (run_calls cs fresh_world)))
  /\ ids_consecutive Attendance.id
       (attendance (db (run_calls cs fresh_world))).
Proof.
  assert (H : forall w,
    ids_consecutive Logbook.id (logbook (db w))
    /\ ids_consecutive Attendance.id (attendance (db w)) ->
    ids_consecutive Logbook.id (logbook (db (run_calls cs w)))
    /\ ids_consecutive Attendance.id (attendance (db (run_calls cs w)))).
  { induction cs as [|c cs IH]; intros w Hw; simpl; [exact Hw|].
    now apply IH, run_call_ids_consecutive. }
  apply H. split; eexists; (split; [reflexivity|split; reflexivity]).
Qed.

(** ** Rows of one date *)

Lemma sorter_insert_filter {R : Type} (date : R -> string) (d : string)
    (r : R) (l : list R) :
  filter (fun x => String.eqb (date x) d) (sorter_insert date r l)
  = filter (fun x => String.eqb (date x) d) (r :: l).
Proof.
  induction l as [|r' l IH]; [reflexivity|].
  cbn [sorter_insert].
  destruct (date_leb (date r') (date r)) eqn:Hle; [reflexivity|].
  cbn [filter] in *. rewrite IH.
  destruct (String.eqb_spec (date r) d) as [Hr|Hr];
    destruct (String.eqb_spec (date r') d) as [Hr'|Hr']; try reflexivity.
  rewrite Hr, Hr', date_leb_refl in Hle. discriminate.
Qed.

Lemma order_by_date_desc_filter {R : Type} (date : R -> string) (d : string)
    (l : list R) :
  filter (fun x => String.eqb (date x) d) (order_by_date_desc date l)
  = filter (fun x => String.eqb (date x) d) l.
Proof.
  induction l as [|r l IH]; [reflexivity|].
  cbn [order_by_date_desc fold_right].
  rewrite sorter_insert_filter. cbn [filter].
  unfold order_by_date_desc in IH. now rewrite IH.
Qed.

(** X3: In the frames that [get_log_entries] and [get_attendance] return,
    the rows of any one date stand in the order of their insertion:
    the query orders by date only, and the sort keeps the scan order
    of rows it does not tell apart. *)
Theorem rows_of_one_date_come_in_insertion_order
    (w : world) (tl : table Logbook.row) (ta : table Attendance.row)
    (d : string) :
  logbook (db w) = Some tl ->
  attendance (db w) = Some ta ->
  exists (ldf : list Logbook.row) (adf : list Attendance.row),
    get_log_entries w = (Return ldf, w)
    /\ get_attendance w = (Return adf, w)
    /\ filter (fun r => String.eqb (Logbook.date r) d) ldf
       = filter (fun r => String.eqb (Logbook.date r) d) (rows tl)
    /\ filter (fun r => String.eqb (Attendance.date r) d) adf
       = filter (fun r => String.eqb (Attendance.date r) d) (rows ta).
Proof.
  intros Hl Ha. do 2 eexists.
  split; [exact (get_log_entries_ok w tl Hl)|].
  split; [exact (get_attendance_ok w ta Ha)|].
  split; apply order_by_date_desc_filter.
Qed.

Lemma rows_of_one_date_come_in_insertion_order_witness :
  let w := run_calls
             [AddLogEntry "Alice" "Meeting" "2024-01-01" "weekly sync";
              AddLogEntry "Bob" "Lecture" "2024-02-10" "graphs";
              AddLogEntry "Carol" "Task" "2024-01-01" "grading";
              MarkAttendance (Datetime 2024 3 5 9 15 0) "Bob" "R101" "Present"]
             fresh_world in
  exists (ldf : list Logbook.row) (adf : list Attendance.row),
    get_log_entries w = (Return ldf, w)
    /\ get_attendance w = (Return adf, w)
    /\ filter (fun r => String.eqb (Logbook.date r) "2024-01-01") ldf
       = filter (fun r => String.eqb (Logbook.date r) "2024-01-01")
           [Logbook.Row 1 "Alice" "Meeting" "2024-01-01" "weekly sync";
            Logbook.Row 2 "Bob" "Lecture" "2024-02-10" "graphs";
            Logbook.Row 3 "Carol" "Task" "2024-01-01" "grading"]
    /\ filter (fun r => String.eqb (Attendance.date r) "2024-01-01") adf
       = filter (fun r => String.eqb (Attendance.date r) "2024-01-01")
           [Attendance.Row 1 "Bob" "R101" "2024-03-05" "Present"].
Proof.
  apply (rows_of_one_date_come_in_insertion_order
           (run_calls
              [AddLogEntry "Alice" "Meeting" "2024-01-01" "weekly sync";
               AddLogEntry "Bob" "Lecture" "2024-02-10" "graphs";
               AddLogEntry "Carol" "Task" "2024-01-01" "grading";
               MarkAttendance (Datetime 2024 3 5 9 15 0) "Bob" "R101" "Present"]
              fresh_world)
           {| rows := [Logbook.Row 1 "Alice" "Meeting" "2024-01-01" "weekly sync";
                       Logbook.Row 2 "Bob" "Lecture" "2024-02-10" "graphs";
                       Logbook.Row 3 "Carol" "Task" "2024-01-01" "grading"];
              seq := 3 |}
           {| rows := [Attendance.Row 1 "Bob" "R101" "2024-03-05" "Present"];
              seq := 1 |}
           "2024-01-01"); reflexivity.
Defined.

(** ** The text order of dates is the calendar order *)

Lemma string_compare_app (s1 s2 t1 t2 : string) :
  String.length s1 = String.length s2 ->
  String.compare (String.append s1 t1) (String.append s2 t2)
  = match String.compare s1 s2 with
    | Eq => String.compare t1 t2
    | c => c
    end.
Proof.
  revert s2. induction s1 as [|c1 s1 IH]; intros [|c2 s2] Hlen;
    try discriminate; [reflexivity|].
  cbn [String.append String.compare].
  destruct (Ascii.compare c1 c2); try reflexivity.
  apply IH. now injection Hlen.
Qed.

Lemma string_length_append (s1 s2 : string) :
  String.length (String.append s1 s2)
  = (String.length s1 + String.length s2)%nat.
Proof. induction s1 as [|c s1 IH]; simpl; [reflexivity|now rewrite IH]. Qed.

Lemma zero_padded_length (width n : nat) :
  String.length (zero_padded width n) = width.
Proof.
  revert n. induction width as [|width IH]; intros n; [reflexivity|].
  cbn [zero_padded]. rewrite string_length_append, IH. cbn. lia.
Qed.

Lemma digit_compare (a b : nat) :
  Ascii.compare (digit a) (digit b) = Nat.compare (a mod 10) (b mod 10).
Proof.
  unfold digit, Ascii.compare, ascii_of_nat.
  pose proof (Nat.mod_upper_bound a 10 ltac:(discriminate)) as Ha.
  pose proof (Nat.mod_upper_bound b 10 ltac:(discriminate)) as Hb.
  remember (a mod 10)%nat as x eqn:Hx. remember (b mod 10)%nat as y eqn:Hy.
  clear Hx Hy.
  rewrite !N_ascii_embedding by lia.
  destruct (Nat.compare_spec x y),
    (N.compare_spec (N.of_nat (48 + x)) (N.of_nat (48 + y)));
    try reflexivity; lia.
Qed.

Lemma zero_padded_compare (width : nat) :
  forall a b : nat,
    (a < 10 ^ width)%nat -> (b < 10 ^ width)%nat ->
    String.compare (zero_padded width a) (zero_padded width b)
    = Nat.compare a b.
Proof.
  induction width as [|width IH]; intros a b Ha Hb.
  - cbn in Ha, Hb. replace a with 0%nat by lia. replace b with 0%nat by lia.
    reflexivity.
  - cbn [zero_padded].
    rewrite string_compare_app by now rewrite !zero_padded_length.
    rewrite Nat.pow_succ_r' in Ha, Hb.
    rewrite IH by (apply Nat.Div0.div_lt_upper_bound; lia).
    cbn [String.compare]. rewrite digit_compare.
    pose proof (Nat.div_mod_eq a 10) as Ea.
    pose proof (Nat.div_mod_eq b 10) as Eb.
    pose proof (Nat.mod_upper_bound a 10 ltac:(discriminate)) as Ma.
    pose proof (Nat.mod_upper_bound b 10 ltac:(discriminate)) as Mb.
    destruct (Nat.compare_spec (a / 10) (b / 10)),
      (Nat.compare_spec (a mod 10) (b mod 10)),
      (Nat.compare_spec a b); try reflexivity; lia.
Qed.

(** The comparison of two printed dates is the comparison of the
    years, then of the months, then of the days. *)
Lemma strftime_Y_m_d_compare (a b : datetime) :
  printable a -> printable b ->
  String.compare (strftime_Y_m_d a) (strftime_Y_m_d b)
  = match Nat.compare (year a) (year b) with
    | Eq => match Nat.compare (month a) (month b) with
            | Eq => Nat.compare (day a) (day b)
            | c => c
            end
    | c => c
    end.
Proof.
  intros (Ya & Ma & Da) (Yb & Mb & Db). unfold strftime_Y_m_d.
  rewrite string_compare_app by now rewrite !zero_padded_length.
  rewrite (zero_padded_compare 4) by assumption.
  destruct (Nat.compare (year a) (year b)); try reflexivity.
  change (String.append "-" ?s) with (String "-" s).
  cbn [String.compare]. rewrite ascii_compare_refl.
  rewrite string_compare_app by now rewrite !zero_padded_length.
  rewrite (zero_padded_compare 2) by assumption.
  destruct (Nat.compare (month a) (month b)); try reflexivity.
  change (String.append "-" ?s) with (String "-" s).
  cbn [String.compare]. rewrite ascii_compare_refl.
  now apply (zero_padded_compare 2).
Qed.

Lemma calendar_day_printable (t : datetime) : calendar_day t -> printable t.
Proof. exact (calendar_day_bounds t). Qed.

(** X4: On the dates that [mark_attendance] and the logbook form write -
    [strftime("%Y-%m-%d")] of a day of a year from 1000 to 9999 - the
    order of [ORDER BY date], which compares the texts, is the order
    of the calendar. *)
Theorem text_order_of_dates_is_calendar_order (a b : datetime) :
  calendar_day a -> calendar_day b ->
  (date_leb (strftime_Y_m_d a) (strftime_Y_m_d b) = true <-> day_le a b).
Proof.
  intros Ca Cb. unfold date_leb, String.leb, day_le.
  rewrite (strftime_Y_m_d_compare a b (calendar_day_printable a Ca)
             (calendar_day_printable b Cb)).
  destruct (Nat.compare_spec (year a) (year b)),
    (Nat.compare_spec (month a) (month b)),
    (Nat.compare_spec (day a) (day b));
    split; intros H'; try discriminate; try reflexivity; lia.
Qed.

Lemma text_order_of_dates_is_calendar_order_witness :
  date_leb (strftime_Y_m_d (Datetime 2023 12 31 23 59 0))
           (strftime_Y_m_d (Datetime 2024 1 2 8 0 0)) = true
  <-> day_le (Datetime 2023 12 31 23 59 0) (Datetime 2024 1 2 8 0 0).
Proof.
  apply (text_order_of_dates_is_calendar_order
           (Datetime 2023 12 31 23 59 0) (Datetime 2024 1 2 8 0 0));
    unfold calendar_day; cbn [year month day];
    repeat split; apply Nat.leb_le; vm_compute; reflexivity.
Defined.

(** X5: Two days are printed alike only if they are the same day: rows
    share a date exactly when they were written for the same day. *)
Theorem strftime_Y_m_d_tells_days_apart (a b : datetime) :
  printable a -> printable b ->
  strftime_Y_m_d a = strftime_Y_m_d b ->
  year a = year b /\ month a = month b /\ day a = day b.
Proof.
  intros Pa Pb E.
  pose proof (strftime_Y_m_d_compare a b Pa Pb) as H.
  rewrite E, string_compare_refl in H.
  destruct (Nat.compare_spec (year a) (year b)),
    (Nat.compare_spec (month a) (month b)),
    (Nat.compare_spec (day a) (day b)); try discriminate; auto.
Qed.

Lemma strftime_Y_m_d_tells_days_apart_witness :
  year (Datetime 2024 3 5 9 15 0) = year (Datetime 2024 3 5 16 40 0)
  /\ month (Datetime 2024 3 5 9 15 0) = month (Datetime 2024 3 5 16 40 0)
  /\ day (Datetime 2024 3 5 9 15 0) = day (Datetime 2024 3 5 16 40 0).
Proof.
  apply (strftime_Y_m_d_tells_days_apart
           (Datetime 2024 3 5 9 15 0) (Datetime 2024 3 5 16 40 0));
    [unfold printable; cbn [year month day];
     repeat split; apply Nat.ltb_lt; vm_compute; reflexivity ..
    |reflexivity].
Defined.

(** ** The similarity advisor never suggests *)

Lemma vocabulary_insert_not_nil (term : string) (v : list string) :
  vocabulary_insert term v <> [].
Proof.
  destruct v as [|u v]; simpl; [discriminate|].
  destruct (String.compare term u); discriminate.
Qed.

Lemma fold_vocabulary_not_nil (terms v : list string) :
  v <> [] ->
  fold_left (fun v' term => vocabulary_insert term v') terms v <> [].
Proof.
  revert v. induction terms as [|term terms IH]; intros v Hv; simpl;
    [exact Hv|].
  apply IH, vocabulary_insert_not_nil.
Qed.

Lemma tokens_nil_iff (docs : list string) :
  List.concat (map analyzer docs) = [] <-> existsb has_token docs = false.
Proof.
  induction docs as [|doc docs IH]; simpl; [tauto|].
  unfold has_token at 1. destruct (analyzer doc) as [|t ts]; simpl.
  - exact IH.
  - split; discriminate.
Qed.

Lemma build_vocabulary_nil_iff (docs : list string) :
  build_vocabulary docs = [] <-> existsb has_token docs = false.
Proof.
  rewrite <- tokens_nil_iff. unfold build_vocabulary.
  destruct (List.concat (map analyzer docs)) as [|t ts]; simpl; [tauto|].
  split; [|discriminate].
  intros H. exfalso. revert H.
  apply fold_vocabulary_not_nil. discriminate.
Qed.

Lemma ai_suggestions_rows_tokens
    (new_description : string) (r : Logbook.row)
    (logbook_df : list Logbook.row) (w : world) :
  ai_suggestions new_description (r :: logbook_df) w
  = (Raise
       (if existsb has_token (map Logbook.description (r :: logbook_df))
        then AttributeError "transform"
        else ValueError
          "empty vocabulary; perhaps the documents only contain stop words"),
     w).
Proof.
  rewrite ai_suggestions_rows.
  destruct (existsb has_token (map Logbook.description (r :: logbook_df)))
    eqn:Htok.
  - destruct (build_vocabulary (map Logbook.description (r :: logbook_df)))
      eqn:Hv; [|reflexivity].
    apply build_vocabulary_nil_iff in Hv. congruence.
  - apply build_vocabulary_nil_iff in Htok. now rewrite Htok.
Qed.

(** X6: Whatever the query, [ai_suggestions] (lines 65-85) on a frame with
    at least one row, the descriptions being ASCII texts, raises,
    renders nothing and returns no entry: [ValueError] from line 70
    when no description has a token (a run of two or more letters,
    digits or underscores), [AttributeError] from line 73 otherwise.
    With the case of the empty frame, no call ever reaches lines
    74-85. *)
Theorem ai_suggestions_raises_on_every_frame_with_rows
    (new_description : string) (r : Logbook.row)
    (logbook_df : list Logbook.row) (w : world) :
  Forall (fun description => ascii_text description = true)
         (map Logbook.description (r :: logbook_df)) ->
  ai_suggestions new_description (r :: logbook_df) w
  = (Raise
       (if existsb has_token (map Logbook.description (r :: logbook_df))
        then AttributeError "transform"
        else ValueError
          "empty vocabulary; perhaps the documents only contain stop words"),
     w).
Proof. intros _. apply ai_suggestions_rows_tokens. Qed.

Lemma ai_suggestions_raises_on_every_frame_with_rows_witness :
  ai_suggestions "budget"
    [Logbook.Row 2 "Bob" "Other" "2024-02-10" "a ? b";
     Logbook.Row 1 "Alice" "Meeting" "2024-01-01" "!"] fresh_world
  = (Raise
       (if existsb has_token
             (map Logbook.description
                [Logbook.Row 2 "Bob" "Other" "2024-02-10" "a ? b";
                 Logbook.Row 1 "Alice" "Meeting" "2024-01-01" "!"])
        then AttributeError "transform"
        else ValueError
          "empty vocabulary; perhaps the documents only contain stop words"),
     fresh_world).
Proof.
  apply (ai_suggestions_raises_on_every_frame_with_rows "budget"
           (Logbook.Row 2 "Bob" "Other" "2024-02-10" "a ? b")
           [Logbook.Row 1 "Alice" "Meeting" "2024-01-01" "!"] fresh_world).
  repeat constructor.
Defined.

(** ** White space *)

Lemma lstrip_blank (s : string) : blank s = true -> lstrip s = EmptyString.
Proof.
  induction s as [|c s IH]; simpl; [reflexivity|].
  destruct (is_space c); simpl; [exact IH|discriminate].
Qed.

Lemma rstrip_nil_blank (s : string) : rstrip s = EmptyString -> blank s = true.
Proof.
  induction s as [|c s IH]; simpl; [reflexivity|].
  destruct (rstrip s); [|discriminate].
  destruct (is_space c); [|discriminate]. intros _. now apply IH.
Qed.

Lemma lstrip_not_blank (s : string) :
  blank s = false -> blank (lstrip s) = false.
Proof.
  induction s as [|c s IH]; simpl; [discriminate|].
  destruct (is_space c) eqn:Hc; simpl; [exact IH|].
  now rewrite Hc.
Qed.

(** [s.strip() == ""], the test of line 147, holds exactly when [s]
    has no character but white space. *)
Lemma strip_nil_iff (s : string) :
  String.eqb (strip s) EmptyString = blank s.
Proof.
  unfold strip. destruct (blank s) eqn:Hb.
  - now rewrite (lstrip_blank s Hb).
  - apply String.eqb_neq. intros H. apply rstrip_nil_blank in H.
    now rewrite (lstrip_not_blank s Hb) in H.
Qed.

(** ** The page script *)

Ltac run_script :=
  unfold rerun, script, add_log_entry_page, view_logbook_page,
    ai_log_suggestions_page, mark_attendance_page, view_attendance_page,
    sbind, show, sret;
  cbn [conn screen fst snd app map].

Lemma started_eq (d : database) :
  started d
  = {| logbook := create_table_if_not_exists (logbook d);
       attendance := create_table_if_not_exists (attendance d) |}.
Proof. reflexivity. Qed.

Arguments started : simpl never.

Lemma started_tables (d : database) :
  exists tl ta, started d = {| logbook := Some tl; attendance := Some ta |}.
Proof. destruct d as [[tl|] [ta|]]; do 2 eexists; reflexivity. Qed.

Lemma invoke_run {A : Type} (m : M A) (s : session) :
  invoke m s
  = (fst (m {| db := conn s; page := [] |}),
     {| conn := db (snd (m {| db := conn s; page := [] |}));
        screen := screen s
                  ++ map st_element
                       (page (snd (m {| db := conn s; page := [] |}))) |}).
Proof. unfold invoke. now destruct (m _). Qed.

Lemma invoke_create_tables (s : session) :
  invoke create_tables s
  = (Return PyNone, {| conn := started (conn s); screen := screen s |}).
Proof. rewrite invoke_run. cbn. now rewrite app_nil_r. Qed.

Lemma invoke_get_log_entries (d : database) (sc : list element)
    (t : table Logbook.row) :
  logbook d = Some t ->
  invoke get_log_entries {| conn := d; screen := sc |}
  = (Return (order_by_date_desc Logbook.date (rows t)),
     {| conn := d; screen := sc |}).
Proof.
  intros Ht. rewrite invoke_run. cbn [conn screen].
  rewrite (get_log_entries_ok {| db := d; page := [] |} t Ht).
  cbn. now rewrite app_nil_r.
Qed.

Lemma invoke_get_attendance (d : database) (sc : list element)
    (t : table Attendance.row) :
  attendance d = Some t ->
  invoke get_attendance {| conn := d; screen := sc |}
  = (Return (order_by_date_desc Attendance.date (rows t)),
     {| conn := d; screen := sc |}).
Proof.
  intros Ht. rewrite invoke_run. cbn [conn screen].
  rewrite (get_attendance_ok {| db := d; page := [] |} t Ht).
  cbn. now rewrite app_nil_r.
Qed.

Lemma invoke_ai_suggestions_rows (q : string) (r : Logbook.row)
    (df : list Logbook.row) (s : session) :
  invoke (ai_suggestions q (r :: df)) s
  = (Raise
       (if existsb has_token (map Logbook.description (r :: df))
        then AttributeError "transform"
        else ValueError
          "empty vocabulary; perhaps the documents only contain stop words"),
     s).
Proof.
  rewrite invoke_run, ai_suggestions_rows_tokens.
  destruct s as [d sc]. cbn. now rewrite app_nil_r.
Qed.

Lemma order_by_date_desc_nil_iff {R : Type} (date : R -> string) (l : list R) :
  order_by_date_desc date l = [] <-> l = [].
Proof.
  split; intros E; [|now subst].
  pose proof (Permutation_length (order_by_date_desc_perm date l)) as H.
  rewrite E in H. now apply length_zero_iff_nil in H.
Qed.

(** What a run does to the database: it creates the missing tables,
    and then either nothing more, or the one [INSERT] of a submitted
    form. *)
Lemma rerun_conn (now : datetime) (u : input) (d : database) :
  conn (snd (rerun now u d)) = started d
  \/ (exists name activity date description t t',
        u = LogbookPage (AddLogEntryPage name activity date description true)
        /\ logbook (started d) = Some t
        /\ insert_into Logbook.id
             (fun i => Logbook.Row i name (activity_text activity)
                         (strftime_Y_m_d date) description) t = Return t'
        /\ conn (snd (rerun now u d))
           = {| logbook := Some t'; attendance := attendance (started d) |})
  \/ (exists student_name roll_number status t t',
        u = AttendanceManagementPage
              (MarkAttendancePage student_name roll_number status true)
        /\ attendance (started d) = Some t
        /\ insert_into Attendance.id
             (fun i => Attendance.Row i student_name roll_number
                         (strftime_Y_m_d now) (status_text status)) t
           = Return t'
        /\ conn (snd (rerun now u d))
           = {| logbook := logbook (started d); attendance := Some t' |}).
Proof.
  destruct (started_tables d) as [tl [ta Hd]].
  destruct u as [[name activity date description [|]|selection|q [|]]
                |[student_name roll_number status [|]|]];
    run_script; rewrite invoke_create_tables; cbn [conn screen].
  - rewrite invoke_run. cbn [conn screen fst snd].
    destruct (add_log_entry_effect name (activity_text activity)
                (strftime_Y_m_d date) description
                {| db := started d; page := [] |}) as [_ [Ha Hl]].
    cbn [db] in Ha, Hl.
    destruct (fst (add_log_entry _ _ _ _ _)) as [[]|e]; cbn [conn snd];
      remember (db (snd (add_log_entry name (activity_text activity)
                           (strftime_Y_m_d date) description
                           {| db := started d; page := [] |}))) as d' eqn:Hd';
      clear Hd'; destruct d' as [l a]; cbn [logbook attendance] in *;
      (destruct Hl as [Hl|[t [t' [Ht [Ht' Hins]]]]];
       [left; subst; now destruct (started d)
       |right; left; exists name, activity, date, description, t, t';
        subst; auto]).
  - now left.
  - left. rewrite (invoke_get_log_entries _ _ tl) by now rewrite Hd.
    now destruct (order_by_date_desc Logbook.date (rows tl)).
  - left. rewrite (invoke_get_log_entries _ _ tl) by now rewrite Hd.
    cbn [conn screen]. destruct (String.eqb (strip q) ""); [reflexivity|].
    rewrite invoke_run. cbn [conn snd]. now rewrite ai_suggestions_db.
  - left. now rewrite (invoke_get_log_entries _ _ tl) by now rewrite Hd.
  - rewrite invoke_run. cbn [conn screen fst snd].
    destruct (mark_attendance_effect now student_name roll_number
                (status_text status)
                {| db := started d; page := [] |}) as [_ [Hl Ha]].
    cbn [db] in Ha, Hl.
    destruct (fst (mark_attendance _ _ _ _ _)) as [[]|e]; cbn [conn snd];
      remember (db (snd (mark_attendance now student_name roll_number
                           (status_text status)
                           {| db := started d; page := [] |}))) as d' eqn:Hd';
      clear Hd'; destruct d' as [l a]; cbn [logbook attendance] in *;
      (destruct Ha as [Ha|[t [t' [Ht [Ht' Hins]]]]];
       [left; subst; now destruct (started d)
       |right; right; exists student_name, roll_number, status, t, t';
        subst; auto]).
  - now left.
  - left. rewrite (invoke_get_attendance _ _ ta) by now rewrite Hd.
    now destruct (order_by_date_desc Attendance.date (rows ta)).
Qed.

Lemma table_rows_started (d : database) :
  table_rows (logbook (started d)) = table_rows (logbook d)
  /\ table_rows (attendance (started d)) = table_rows (attendance d).
Proof. now destruct d as [[tl|] [ta|]]. Qed.

(** X7: A run that submits no form - any of the two views, the suggestion
    page, a form left open - writes nothing: it leaves the database as
    start-up makes it, with every row of both tables as it was. *)
Theorem a_run_without_submission_writes_nothing
    (now : datetime) (u : input) (d : database) :
  submits u = false ->
  conn (snd (rerun now u d)) = started d
  /\ table_rows (logbook (conn (snd (rerun now u d))))
     = table_rows (logbook d)
  /\ table_rows (attendance (conn (snd (rerun now u d))))
     = table_rows (attendance d).
Proof.
  intros Hu.
  assert (H : conn (snd (rerun now u d)) = started d).
  { destruct (rerun_conn now u d)
      as [H|[(n & a & dt & ds & t & t' & -> & _)
            |(sn & rn & st & t & t' & -> & _)]];
      [exact H|discriminate Hu|discriminate Hu]. }
  rewrite H. split; [reflexivity|apply table_rows_started].
Qed.

Lemma a_run_without_submission_writes_nothing_witness :
  let d := after_runs
             [(Datetime 2024 3 5 9 15 0,
               LogbookPage (AddLogEntryPage "Alice" Meeting
                              (Datetime 2024 1 1 0 0 0) "weekly sync" true))]
             new_database in
  let u := LogbookPage (AILogSuggestionsPage "sync" true) in
  conn (snd (rerun (Datetime 2024 3 6 8 0 0) u d)) = started d
  /\ table_rows (logbook (conn (snd (rerun (Datetime 2024 3 6 8 0 0) u d))))
     = table_rows (logbook d)
  /\ table_rows (attendance (conn (snd (rerun (Datetime 2024 3 6 8 0 0) u d))))
     = table_rows (attendance d).
Proof.
  apply (a_run_without_submission_writes_nothing
           (Datetime 2024 3 6 8 0 0)
           (LogbookPage (AILogSuggestionsPage "sync" true))
           (after_runs
              [(Datetime 2024 3 5 9 15 0,
                LogbookPage (AddLogEntryPage "Alice" Meeting
                               (Datetime 2024 1 1 0 0 0) "weekly sync" true))]
              new_database)).
  reflexivity.
Defined.

Lemma rows_kept_started (d : database) :
  rows_kept (logbook d) (logbook (started d))
  /\ rows_kept (attendance d) (attendance (started d)).
Proof. destruct d as [[tl|] [ta|]]; split; apply rows_kept_refl || exact I. Qed.

Lemma rows_kept_insert_into {R : Type} (rid : R -> Z) (mk : Z -> R)
    (t t' : table R) :
  insert_into rid mk t = Return t' -> rows_kept (Some t) (Some t').
Proof.
  intros Hins. apply insert_into_inv in Hins. destruct Hins as [i [Hrows _]].
  now exists t', [mk i].
Qed.

Lemma rerun_rows_kept (now : datetime) (u : input) (d : database) :
  rows_kept (logbook d) (logbook (conn (snd (rerun now u d))))
  /\ rows_kept (attendance d) (attendance (conn (snd (rerun now u d)))).
Proof.
  destruct (rows_kept_started d) as [Kl Ka].
  destruct (rerun_conn now u d)
    as [->|[(n & a & dt & ds & t & t' & _ & Ht & Hins & ->)
          |(sn & rn & st & t & t' & _ & Ht & Hins & ->)]];
    cbn [logbook attendance]; split; try assumption.
  - eapply rows_kept_trans; [exact Kl|]. rewrite Ht.
    eapply rows_kept_insert_into, Hins.
  - eapply rows_kept_trans; [exact Ka|]. rewrite Ht.
    eapply rows_kept_insert_into, Hins.
Qed.

(** X8: The script never deletes or rewrites a record: after any sequence
    of runs, on whatever pages and with whatever input, each table
    still starts with the rows it had, unchanged and in place. *)
Theorem runs_never_delete_or_rewrite_a_row
    (runs : list (datetime * input)) (d : database) :
  rows_kept (logbook d) (logbook (after_runs runs d))
  /\ rows_kept (attendance d) (attendance (after_runs runs d)).
Proof.
  revert d. induction runs as [|[now u] runs IH]; intros d; cbn.
  - split; apply rows_kept_refl.
  - destruct (rerun_rows_kept now u d) as [H1 H2].
    destruct (IH (conn (snd (rerun now u d)))) as [H3 H4].
    split; eapply rows_kept_trans; eauto.
Qed.

Lemma all_rows_started (Pl : Logbook.row -> Prop) (Pa : Attendance.row -> Prop)
    (d : database) :
  all_rows Pl (logbook d) -> all_rows Pa (attendance d) ->
  all_rows Pl (logbook (started d)) /\ all_rows Pa (attendance (started d)).
Proof. destruct d as [[tl|] [ta|]]; unfold started; cbn; auto. Qed.

Lemma activity_text_option (a : activity_option) :
  In (activity_text a) ["Lecture"; "Meeting"; "Task"; "Event"; "Other"].
Proof. destruct a; cbn; tauto. Qed.

Lemma status_text_option (s : status_option) :
  In (status_text s) ["Present"; "Absent"].
Proof. destruct s; cbn; tauto. Qed.

Lemma rerun_rows_from_forms (now : datetime) (u : input) (d : database) :
  all_rows logbook_row_from_form (logbook d)
  /\ all_rows attendance_row_from_form (attendance d) ->
  all_rows logbook_row_from_form (logbook (conn (snd (rerun now u d))))
  /\ all_rows attendance_row_from_form
       (attendance (conn (snd (rerun now u d)))).
Proof.
  intros [Hl Ha].
  destruct (all_rows_started _ _ d Hl Ha) as [Sl Sa].
  destruct (rerun_conn now u d)
    as [->|[(n & a & dt & ds & t & t' & _ & Ht & Hins & ->)
          |(sn & rn & st & t & t' & _ & Ht & Hins & ->)]];
    cbn [logbook attendance]; split; try assumption.
  - rewrite Ht in Sl. cbn in Sl |- *.
    apply insert_into_inv in Hins. destruct Hins as [i [-> _]].
    apply Forall_app. split; [exact Sl|]. constructor; [|constructor].
    split; [apply activity_text_option|apply strftime_Y_m_d_shape].
  - rewrite Ht in Sa. cbn in Sa |- *.
    apply insert_into_inv in Hins. destruct Hins as [i [-> _]].
    apply Forall_app. split; [exact Sa|]. constructor; [|constructor].
    split; [apply status_text_option|apply strftime_Y_m_d_shape].
Qed.

(** X9: Whatever is typed into the forms, every row the script has written
    since the database was created is well formed: a logbook row has
    one of the five activities of the select box and a date of shape
    YYYY-MM-DD, an attendance row has the status "Present" or "Absent"
    and a date of that shape.  (Names, roll numbers and descriptions
    are stored as typed, empty ones included.) *)
Theorem rows_written_by_the_forms_are_well_formed
    (runs : list (datetime * input)) :
  all_rows logbook_row_from_form (logbook (after_runs runs new_database))
  /\ all_rows attendance_row_from_form
       (attendance (after_runs runs new_database)).
Proof.
  assert (H : forall d,
    all_rows logbook_row_from_form (logbook d)
    /\ all_rows attendance_row_from_form (attendance d) ->
    all_rows logbook_row_from_form (logbook (after_runs runs d))
    /\ all_rows attendance_row_from_form (attendance (after_runs runs d))).
  { induction runs as [|[now u] runs IH]; intros d Hd; cbn; [exact Hd|].
    now apply IH, rerun_rows_from_forms. }
  apply H. cbn. auto.
Qed.

(** ** The suggestion page *)

(** X10: Line 147 keeps a blank query away from [ai_suggestions]: when the
    text has no character but white space, a click on the button only
    renders the notice, the run returns and nothing is written. *)
Theorem a_blank_query_is_stopped_by_the_page
    (now : datetime) (new_description : string) (d : database) :
  blank new_description = true ->
  rerun now (LogbookPage (AILogSuggestionsPage new_description true)) d
  = (Return PyNone,
     {| conn := started d;
        screen :=
          [st_title "Logbook and Attendance Management System";
           st_header "AI Enhanced Logbook Management";
           st_element (st_subheader "AI-Powered Log Insights");
           st_element
             (st_subheader "Input a description to get AI-based suggestions:");
           st_element (st_warning "Please enter a description.")] |}).
Proof.
  intros Hb. destruct (started_tables d) as [tl [ta Hd]].
  run_script. rewrite invoke_create_tables. cbn [conn screen].
  rewrite (invoke_get_log_entries _ _ tl) by now rewrite Hd.
  cbn [conn screen]. now rewrite strip_nil_iff, Hb.
Qed.

Lemma a_blank_query_is_stopped_by_the_page_witness :
  rerun (Datetime 2024 3 5 9 15 0)
    (LogbookPage (AILogSuggestionsPage "  " true)) new_database
  = (Return PyNone,
     {| conn := started new_database;
        screen :=
          [st_title "Logbook and Attendance Management System";
           st_header "AI Enhanced Logbook Management";
           st_element (st_subheader "AI-Powered Log Insights");
           st_element
             (st_subheader "Input a description to get AI-based suggestions:");
           st_element (st_warning "Please enter a description.")] |}).
Proof.
  apply (a_blank_query_is_stopped_by_the_page
           (Datetime 2024 3 5 9 15 0) "  " new_database).
  reflexivity.
Defined.

(** X11: A click with a query that is not blank never shows a suggestion,
    the query and the descriptions of the logbook being ASCII texts:
    with an empty logbook the run renders the notice of line 67 and
    returns; with at least one entry it stops on the exception of
    [ai_suggestions], having rendered the two headings of the page
    only.  Nothing is written either way. *)
Theorem a_query_is_never_answered_with_a_suggestion
    (now : datetime) (new_description : string) (d : database) :
  ascii_text new_description = true ->
  blank new_description = false ->
  all_rows (fun r => ascii_text (Logbook.description r) = true) (logbook d) ->
  rerun now (LogbookPage (AILogSuggestionsPage new_description true)) d
  = match order_by_date_desc Logbook.date (table_rows (logbook d)) with
    | [] =>
        (Return PyNone,
         {| conn := started d;
            screen :=
              [st_title "Logbook and Attendance Management System";
               st_header "AI Enhanced Logbook Management";
               st_element (st_subheader "AI-Powered Log Insights");
               st_element
                 (st_subheader
                    "Input a description to get AI-based suggestions:");
               st_element
                 (st_warning "No logs available for AI suggestions.")] |})
    | r :: logbook_df =>
        (Raise
           (if existsb has_token (map Logbook.description (r :: logbook_df))
            then AttributeError "transform"
            else ValueError
              "empty vocabulary; perhaps the documents only contain stop words"),
         {| conn := started d;
            screen :=
              [st_title "Logbook and Attendance Management System";
               st_header "AI Enhanced Logbook Management";
               st_element (st_subheader "AI-Powered Log Insights");
               st_element
                 (st_subheader
                    "Input a description to get AI-based suggestions:")] |})
    end.
Proof.
  intros _ Hb _. destruct (started_tables d) as [tl [ta Hd]].
  destruct (table_rows_started d) as [Hrows _]. rewrite <- Hrows, Hd.
  cbn [table_rows logbook].
  run_script. rewrite invoke_create_tables. cbn [conn screen].
  rewrite (invoke_get_log_entries _ _ tl) by now rewrite Hd.
  cbn [conn screen]. rewrite strip_nil_iff, Hb.
  destruct (order_by_date_desc Logbook.date (rows tl)) as [|r df].
  - rewrite invoke_run. cbn. now rewrite Hd.
  - rewrite invoke_ai_suggestions_rows. cbn. now rewrite Hd.
Qed.

Lemma a_query_is_never_answered_with_a_suggestion_witness :
  let d := after_runs
             [(Datetime 2024 3 5 9 15 0,
               LogbookPage (AddLogEntryPage "Alice" Meeting
                              (Datetime 2024 1 1 0 0 0) "weekly sync" true))]
             new_database in
  rerun (Datetime 2024 3 6 8 0 0)
    (LogbookPage (AILogSuggestionsPage "weekly sync" true)) d
  = match order_by_date_desc Logbook.date (table_rows (logbook d)) with
    | [] =>
        (Return PyNone,
         {| conn := started d;
            screen :=
              [st_title "Logbook and Attendance Management System";
               st_header "AI Enhanced Logbook Management";
               st_element (st_subheader "AI-Powered Log Insights");
               st_element
                 (st_subheader
                    "Input a description to get AI-based suggestions:");
               st_element
                 (st_warning "No logs available for AI suggestions.")] |})
    | r :: logbook_df =>
        (Raise
           (if existsb has_token (map Logbook.description (r :: logbook_df))
            then AttributeError "transform"
            else ValueError
              "empty vocabulary; perhaps the documents only contain stop words"),
         {| conn := started d;
            screen :=
              [st_title "Logbook and Attendance Management System";
               st_header "AI Enhanced Logbook Management";
               st_element (st_subheader "AI-Powered Log Insights");
               st_element
                 (st_subheader
                    "Input a description to get AI-based suggestions:")] |})
    end.
Proof.
  apply (a_query_is_never_answered_with_a_suggestion
           (Datetime 2024 3 6 8 0 0) "weekly sync"
           (after_runs
              [(Datetime 2024 3 5 9 15 0,
                LogbookPage (AddLogEntryPage "Alice" Meeting
                               (Datetime 2024 1 1 0 0 0) "weekly sync" true))]
              new_database)).
  - reflexivity.
  - reflexivity.
  - cbv. repeat constructor.
Defined.

(** ** The logbook view *)

Lemma unique_from_covers (l : list string) :
  forall (seen : list string) (x : string),
    In x l -> existsb (String.eqb x) seen = true \/ In x (unique_from seen l).
Proof.
  induction l as [|y l IH]; intros seen x Hx; [destruct Hx|].
  cbn [unique_from]. destruct Hx as [->|Hx].
  - destruct (existsb (String.eqb x) seen) eqn:Hs; [now left|].
    right. now left.
  - destruct (existsb (String.eqb y) seen) eqn:Hs.
    + now apply IH.
    + destruct (IH (y :: seen) x Hx) as [H|H]; [|right; now right].
      cbn [existsb] in H. apply orb_true_iff in H. destruct H as [H|H].
      * apply String.eqb_eq in H. subst. right. now left.
      * now left.
Qed.

Lemma isin_unique (x : string) (l : list string) :
  In x l -> isin x (unique l) = true.
Proof.
  intros Hx. destruct (unique_from_covers l [] x Hx) as [H|H];
    [discriminate|].
  unfold isin. apply existsb_exists. exists x. split; [exact H|].
  apply String.eqb_refl.
Qed.

Lemma filter_default_selection (df : list Logbook.row) :
  filter (fun r => isin (Logbook.activity r) (unique (map Logbook.activity df)))
         df = df.
Proof.
  apply forallb_filter_id, forallb_forall. intros r Hr.
  apply isin_unique, in_map, Hr.
Qed.

Lemma view_logbook_run
    (now : datetime) (d : database) :
  rerun now (LogbookPage (ViewLogbookPage None)) d
  = (Return PyNone,
     {| conn := started d;
        screen :=
          [st_title "Logbook and Attendance Management System";
           st_header "AI Enhanced Logbook Management";
           st_element (st_subheader "Logbook Entries")]
          ++ match order_by_date_desc Logbook.date (table_rows (logbook d)) with
             | [] => [st_element (st_warning "No log entries found.")]
             | logbook_df =>
                 [st_dataframe (inl logbook_df);
                  st_element (st_write "Filtered Log Entries");
                  st_dataframe (inl logbook_df)]
             end |}).
Proof.
  destruct (started_tables d) as [tl [ta Hd]].
  destruct (table_rows_started d) as [Hrows _]. rewrite <- Hrows, Hd.
  cbn [table_rows logbook].
  run_script. rewrite invoke_create_tables. cbn [conn screen].
  rewrite (invoke_get_log_entries _ _ tl) by now rewrite Hd.
  destruct (order_by_date_desc Logbook.date (rows tl)) as [|r df] eqn:Hdf;
    [cbn; now rewrite Hd|].
  cbn [conn screen st_multiselect app].
  now rewrite filter_default_selection, Hd.
Qed.

(** X12: The logbook view never fails and writes nothing.  Without entries
    it renders the notice of line 135.  With entries, and the filter
    left at its default - every activity that occurs - the filtered
    table is the whole logbook: the frame of [get_log_entries] is
    rendered twice. *)
Theorem the_default_filter_shows_the_whole_logbook
    (now : datetime) (d : database) :
  rerun now (LogbookPage (ViewLogbookPage None)) d
  = (Return PyNone,
     {| conn := started d;
        screen :=
          [st_title "Logbook and Attendance Management System";
           st_header "AI Enhanced Logbook Management";
           st_element (st_subheader "Logbook Entries")]
          ++ match order_by_date_desc Logbook.date (table_rows (logbook d)) with
             | [] => [st_element (st_warning "No log entries found.")]
             | logbook_df =>
                 [st_dataframe (inl logbook_df);
                  st_element (st_write "Filtered Log Entries");
                  st_dataframe (inl logbook_df)]
             end |}).
Proof. apply view_logbook_run. Qed.

(** With a selection made in the filter, the second table holds the
    rows of the first whose activity is selected, in the same order;
    an activity that is not selected never shows. *)
Theorem the_filter_keeps_the_selected_activities
    (now : datetime) (chosen : list string) (d : database) :
  rerun now (LogbookPage (ViewLogbookPage (Some chosen))) d
  = (Return PyNone,
     {| conn := started d;
        screen :=
          [st_title "Logbook and Attendance Management System";
           st_header "AI Enhanced Logbook Management";
           st_element (st_subheader "Logbook Entries")]
          ++ match order_by_date_desc Logbook.date (table_rows (logbook d)) with
             | [] => [st_element (st_warning "No log entries found.")]
             | logbook_df =>
                 [st_dataframe (inl logbook_df);
                  st_element (st_write "Filtered Log Entries");
                  st_dataframe
                    (inl (filter (fun r => isin (Logbook.activity r) chosen)
                            logbook_df))]
             end |}).
Proof.
  destruct (started_tables d) as [tl [ta Hd]].
  destruct (table_rows_started d) as [Hrows _]. rewrite <- Hrows, Hd.
  cbn [table_rows logbook].
  run_script. rewrite invoke_create_tables. cbn [conn screen].
  rewrite (invoke_get_log_entries _ _ tl) by now rewrite Hd.
  destruct (order_by_date_desc Logbook.date (rows tl)) as [|r df];
    cbn; now rewrite Hd.
Qed.

(** ** Outcomes of a run *)

Lemma add_log_entry_outcome (name activity date description : string)
    (w : world) (t : table Logbook.row) :
  logbook (db w) = Some t ->
  fst (add_log_entry name activity date description w) = Return PyNone
  \/ fst (add_log_entry name activity date description w)
     = Raise (OperationalError "database or disk is full").
Proof.
  intros Ht. run_store. rewrite Ht. unfold insert_into, autoincrement.
  destruct (max_rowid <=? _); cbn; auto.
Qed.

Lemma mark_attendance_outcome (now : datetime)
    (student_name roll_number status : string)
    (w : world) (t : table Attendance.row) :
  attendance (db w) = Some t ->
  fst (mark_attendance now student_name roll_number status w) = Return PyNone
  \/ fst (mark_attendance now student_name roll_number status w)
     = Raise (OperationalError "database or disk is full").
Proof.
  intros Ht. run_store. rewrite Ht. unfold insert_into, autoincrement.
  destruct (max_rowid <=? _); cbn; auto.
Qed.

(** X13: Since every run starts with [create_tables], no run fails for a
    missing table: on a database that holds both tables, one of them
    or none, both tables exist after the run, and the run returns or
    raises in one of two cases - a submitted form finds its table at
    the last rowid, or a suggestion is asked with a query that is not
    blank while the logbook has entries.  (The database is one that
    SQLite can read and write; the faults of the file are outside
    the model.) *)
Theorem a_run_fails_only_on_a_full_table_or_a_suggestion
    (now : datetime) (u : input) (d : database) :
  (exists tl ta,
     conn (snd (rerun now u d))
     = {| logbook := Some tl; attendance := Some ta |})
  /\ (fst (rerun now u d) = Return PyNone
      \/ (submits u = true
          /\ fst (rerun now u d)
             = Raise (OperationalError "database or disk is full"))
      \/ (exists q,
            u = LogbookPage (AILogSuggestionsPage q true)
            /\ blank q = false
            /\ table_rows (logbook d) <> []
            /\ (fst (rerun now u d) = Raise (AttributeError "transform")
                \/ fst (rerun now u d)
                   = Raise (ValueError
                       "empty vocabulary; perhaps the documents only contain stop words")))).
Proof.
  split.
  - destruct (started_tables d) as [tl [ta Hd]].
    destruct (rerun_conn now u d)
      as [->|[(n & a & dt & ds & t & t' & _ & Ht & Hins & ->)
            |(sn & rn & st & t & t' & _ & Ht & Hins & ->)]];
      rewrite Hd; cbn [logbook attendance]; eauto.
  - destruct (started_tables d) as [tl [ta Hd]].
    destruct u as [[name activity date description [|]|[chosen|]|q [|]]
                  |[student_name roll_number status [|]|]].
    + run_script. rewrite invoke_create_tables. cbn [conn screen].
      rewrite invoke_run. cbn [conn screen fst snd].
      destruct (add_log_entry_outcome name (activity_text activity)
                  (strftime_Y_m_d date) description
                  {| db := started d; page := [] |} tl) as [->| ->];
        [now rewrite Hd|now left|right; left; now split].
    + now left.
    + left. run_script. rewrite invoke_create_tables. cbn [conn screen].
      rewrite (invoke_get_log_entries _ _ tl) by now rewrite Hd.
      now destruct (order_by_date_desc Logbook.date (rows tl)).
    + left. run_script. rewrite invoke_create_tables. cbn [conn screen].
      rewrite (invoke_get_log_entries _ _ tl) by now rewrite Hd.
      now destruct (order_by_date_desc Logbook.date (rows tl)).
    + run_script. rewrite invoke_create_tables. cbn [conn screen].
      rewrite (invoke_get_log_entries _ _ tl) by now rewrite Hd.
      cbn [conn screen]. rewrite strip_nil_iff.
      destruct (blank q) eqn:Hb; [now left|].
      destruct (order_by_date_desc Logbook.date (rows tl)) as [|r df] eqn:Hdf.
      * left. now rewrite invoke_run.
      * right. right. exists q. repeat split; try assumption.
        -- destruct (table_rows_started d) as [Hrows _].
           rewrite <- Hrows, Hd. cbn [table_rows logbook].
           intros E. rewrite E in Hdf. discriminate.
        -- rewrite invoke_ai_suggestions_rows. cbn [fst].
           destruct (existsb _ _); auto.
    + left. run_script. rewrite invoke_create_tables. cbn [conn screen].
      now rewrite (invoke_get_log_entries _ _ tl) by now rewrite Hd.
    + run_script. rewrite invoke_create_tables. cbn [conn screen].
      rewrite invoke_run. cbn [conn screen fst snd].
      destruct (mark_attendance_outcome now student_name roll_number
                  (status_text status)
                  {| db := started d; page := [] |} ta) as [->| ->];
        [now rewrite Hd|now left|right; left; now split].
    + now left.
    + left. run_script. rewrite invoke_create_tables. cbn [conn screen].
      rewrite (invoke_get_attendance _ _ ta) by now rewrite Hd.
      now destruct (order_by_date_desc Attendance.date (rows ta)).
Qed.

(** ** From a form to the view *)








(** ** The attendance frame *)

(** X16: Whenever the attendance table exists, [get_attendance] (lines
    59-62) returns, raises nothing and changes nothing; its frame
    holds every record of the table exactly once, ids included, with
    the dates in descending order. *)
Theorem get_attendance_returns_every_record_by_date
    (w : world) (t : table Attendance.row) :
  attendance (db w) = Some t ->
  exists attendance_df : list Attendance.row,
    get_attendance w = (Return attendance_df, w)
    /\ Permutation (rows t) attendance_df
    /\ StronglySorted (date_desc Attendance.date) attendance_df.
Proof.
  intros Ht. eexists. split; [exact (get_attendance_ok w t Ht)|].
  split; [apply order_by_date_desc_perm|apply order_by_date_desc_sorted].
Qed.

Lemma get_attendance_returns_every_record_by_date_witness :
  let w := run_calls
             [MarkAttendance (Datetime 2024 3 4 9 0 0) "Eve" "R007" "Present";
              MarkAttendance (Datetime 2024 3 5 9 15 0) "Bob" "R101" "Absent"]
             fresh_world in
  exists attendance_df : list Attendance.row,
    get_attendance w = (Return attendance_df, w)
    /\ Permutation
         [Attendance.Row 1 "Eve" "R007" "2024-03-04" "Present";
          Attendance.Row 2 "Bob" "R101" "2024-03-05" "Absent"]
         attendance_df
    /\ StronglySorted (date_desc Attendance.date) attendance_df.
Proof.
  apply (get_attendance_returns_every_record_by_date
           (run_calls
              [MarkAttendance (Datetime 2024 3 4 9 0 0) "Eve" "R007" "Present";
               MarkAttendance (Datetime 2024 3 5 9 15 0) "Bob" "R101" "Absent"]
              fresh_world)
           {| rows := [Attendance.Row 1 "Eve" "R007" "2024-03-04" "Present";
                       Attendance.Row 2 "Bob" "R101" "2024-03-05" "Absent"];
              seq := 2 |}).
  reflexivity.
Defined.
